(** * MPR to DXF conversion: the parser and writer of [route.js]

    A shallow embedding of [src/app/api/process-mpr/route.js]
    ([parseVariables], [findLine], [findCircles], [createDxf], [POST])
    together with the JavaScript built-ins these functions call, and the
    properties of the conversion stated in the specification.

    Strings.  A JavaScript string is a sequence of UTF-16 code units.  The
    embedding covers the documents all of whose code units are below 256:
    a character of a Rocq [string] stands for the code unit with the same
    number.  Every character the source tests for is in that range. *)

From Stdlib Require Import ZArith NArith Ascii String List Bool Lia Sorted.
From stdpp Require Import gmap strings list fin_maps.
Import ListNotations.

Local Open Scope string_scope.

(* ===================================================================== *)
(** * The JavaScript built-ins used by the source *)
(* ===================================================================== *)

Module JS.

(** ** Character classes *)

Definition code (c : ascii) : N := N_of_ascii c.

(** WhiteSpace and LineTerminator code units below 256: TAB, LF, VT, FF,
    CR, SP and NBSP.  This is the set removed by [String.prototype.trim],
    skipped by [parseFloat] and matched by [\s]. *)
Definition is_space (c : ascii) : bool :=
  let n := code c in
  ((9 <=? n) && (n <=? 13) || (n =? 32) || (n =? 160))%N.

(** LineTerminator code units below 256 (LF, CR); [.] in a regular
    expression matches every character but these. *)
Definition is_line_terminator (c : ascii) : bool :=
  let n := code c in ((n =? 10) || (n =? 13))%N.

Definition is_dot (c : ascii) : bool := negb (is_line_terminator c).

Definition is_digit (c : ascii) : bool :=
  let n := code c in ((48 <=? n) && (n <=? 57))%N.

Definition is_upper (c : ascii) : bool :=
  let n := code c in ((65 <=? n) && (n <=? 90))%N.

Definition is_lower (c : ascii) : bool :=
  let n := code c in ((97 <=? n) && (n <=? 122))%N.

(** [\w] is [[A-Za-z0-9_]]. *)
Definition is_word (c : ascii) : bool :=
  is_upper c || is_lower c || is_digit c || (code c =? 95)%N.

(** The double quote, code unit 34. *)
Definition dquote : ascii := ascii_of_nat 34.

Definition is_dquote (c : ascii) : bool := (code c =? 34)%N.

(** The class of every character but the double quote. *)
Definition not_dquote (c : ascii) : bool := negb (is_dquote c).

Definition LF : ascii := ascii_of_nat 10.

(** ** String methods *)

(** [s.startsWith(p)] *)
Definition startsWith (s p : string) : bool := String.prefix p s.

Fixpoint trimStart (s : string) : string :=
  match s with
  | String c s' => if is_space c then trimStart s' else s
  | EmptyString => EmptyString
  end.

Fixpoint trimEnd (s : string) : string :=
  match s with
  | String c s' =>
      match trimEnd s' with
      | EmptyString => if is_space c then EmptyString else String c EmptyString
      | t => String c t
      end
  | EmptyString => EmptyString
  end.

(** [s.trim()] *)
Definition trim (s : string) : string := trimEnd (trimStart s).

(** [s.split('\n')]: never empty, the empty string gives one empty line. *)
Fixpoint split (s : string) : list string :=
  match s with
  | EmptyString => [EmptyString]
  | String c s' =>
      if (code c =? 10)%N then EmptyString :: split s'
      else match split s' with
           | l :: ls => String c l :: ls
           | [] => [String c EmptyString]
           end
  end.

Definition lower_char (c : ascii) : ascii :=
  if is_upper c then ascii_of_N (code c + 32) else c.

Definition upper_char (c : ascii) : ascii :=
  if is_lower c then ascii_of_N (code c - 32) else c.

Fixpoint map_string (f : ascii -> ascii) (s : string) : string :=
  match s with
  | String c s' => String (f c) (map_string f s')
  | EmptyString => EmptyString
  end.

(** [toLowerCase] and [toUpperCase]; the source applies them to the text
    of a [\w+] group only, where the letters are the ASCII ones. *)
Definition toLowerCase : string -> string := map_string lower_char.
Definition toUpperCase : string -> string := map_string upper_char.

(** ** Regular expressions: greedy quantifiers with backtracking

    The matcher is written in continuation passing style.  A continuation
    receives the text matched by the piece before it and the rest of the
    input; when it fails the piece before it gives back one character and
    tries again, as the backtracking matcher of JavaScript does. *)

(** [p*]: as many characters of class [p] as possible, fewer on failure. *)
Fixpoint many {A} (p : ascii -> bool) (s : string)
    (k : string -> string -> option A) : option A :=
  match s with
  | String c s' =>
      if p c then
        match many p s' (fun m r => k (String c m) r) with
        | Some a => Some a
        | None => k EmptyString s
        end
      else k EmptyString s
  | EmptyString => k EmptyString s
  end.

(** [p+] *)
Definition many1 {A} (p : ascii -> bool) (s : string)
    (k : string -> string -> option A) : option A :=
  many p s (fun m r => match m with EmptyString => None | _ => k m r end).

(** A literal character. *)
Definition lit {A} (p : ascii -> bool) (s : string)
    (k : string -> option A) : option A :=
  match s with
  | String c s' => if p c then k s' else None
  | EmptyString => None
  end.

(** [$] without the multiline flag: the end of the input. *)
Definition eoi {A} (s : string) (a : A) : option A :=
  match s with EmptyString => Some a | _ => None end.

(** An expression that is not anchored is tried at every position from
    the left; the first position where it matches wins. *)
Fixpoint search {A} (re : string -> option A) (s : string) : option A :=
  match re s with
  | Some a => Some a
  | None =>
      match s with
      | String _ s' => search re s'
      | EmptyString => None
      end
  end.

Definition is_eq_sign (c : ascii) : bool := (code c =? 61)%N.

(** ** Numbers

    A Number is kept as what [parseFloat] read: not a number, an infinity,
    or a decimal [(-1)^neg * m * 10^e], which stands for the double nearest
    to it.  A decimal whose nearest double is infinite is read as the
    infinity. *)
Inductive number :=
  | NaN
  | Infinity (neg : bool)
  | Decimal (neg : bool) (m : N) (e : Z).

Definition isNaN (n : number) : bool :=
  match n with NaN => true | _ => false end.

Definition isFinite (n : number) : bool :=
  match n with Decimal _ _ _ => true | _ => false end.

(** Round to nearest, ties to even: a magnitude of at least
    [2^1024 - 2^970] becomes an infinity. *)
Definition overflows (m : N) (e : Z) : bool :=
  let T := (2 ^ 1024 - 2 ^ 970)%Z in
  if (0 <=? e)%Z then (T <=? Z.of_N m * 10 ^ e)%Z
  else (T * 10 ^ (- e) <=? Z.of_N m)%Z.

(** DecimalDigits: the value read so far, the number of digits, the rest. *)
Fixpoint digits (s : string) (acc : N) (n : nat) : N * nat * string :=
  match s with
  | String c s' =>
      if is_digit c then digits s' (10 * acc + (code c - 48))%N (S n)
      else (acc, n, s)
  | EmptyString => (acc, n, s)
  end.

(** An optional sign: [true] for [-]. *)
Definition sign (s : string) : bool * string :=
  match s with
  | String c s' =>
      if (code c =? 45)%N then (true, s')
      else if (code c =? 43)%N then (false, s')
      else (false, s)
  | EmptyString => (false, s)
  end.

(** ExponentPart, taken only when it is complete. *)
Definition exponent (s : string) : Z :=
  match s with
  | String c s' =>
      if ((code c =? 101) || (code c =? 69))%N then
        let '(neg, r) := sign s' in
        let '(v, n, _) := digits r 0%N 0 in
        match n with
        | O => 0%Z
        | _ => if neg then (- Z.of_N v)%Z else Z.of_N v
        end
      else 0%Z
  | EmptyString => 0%Z
  end.

(** [parseFloat(s)]: leading white space is skipped, then the longest
    prefix that is a StrDecimalLiteral is read; [NaN] when there is none. *)
Definition parseFloat (s : string) : number :=
  let '(neg, r) := sign (trimStart s) in
  if startsWith r "Infinity" then Infinity neg
  else
    let '(m1, n1, r1) := digits r 0%N 0 in
    let '(m, n2, r2) :=
      match r1 with
      | String c r' =>
          if (code c =? 46)%N then digits r' m1 0 else (m1, 0, r1)
      | EmptyString => (m1, 0, r1)
      end in
    match (n1 + n2)%nat with
    | O => NaN
    | _ =>
        let e := (exponent r2 - Z.of_nat n2)%Z in
        if overflows m e then Infinity neg else Decimal neg m e
    end.

(** ** Objects used as maps

    [variables = {}] is an ordinary object: its own properties are the
    names assigned so far, and reading a name that is not an own property
    goes on to [Object.prototype]. *)

(** The property names of [Object.prototype]; every one of them holds a
    function, but [__proto__], an accessor that gives the prototype. *)
Definition object_prototype : list string :=
  [ "constructor"; "__defineGetter__"; "__defineSetter__"; "hasOwnProperty";
    "__lookupGetter__"; "__lookupSetter__"; "isPrototypeOf";
    "propertyIsEnumerable"; "toString"; "valueOf"; "__proto__";
    "toLocaleString" ].

(** What a property read that is not [undefined] gives: a string stored by
    the program, or the function or object found on [Object.prototype]
    under the name [k]. *)
Inductive Value :=
  | Str (s : string)
  | Inherited (k : string).

(** [o[k]]; [None] is [undefined]. *)
Definition get (o : gmap string string) (k : string) : option Value :=
  match o !! k with
  | Some v => Some (Str v)
  | None => if bool_decide (k ∈ object_prototype) then Some (Inherited k) else None
  end.

(** [o[k] = v] for a string [v]: the setter of [__proto__] ignores a value
    that is neither an object nor null; any other name becomes (or stays)
    an own property. *)
Definition set (k v : string) (o : gmap string string) : gmap string string :=
  if String.eqb k "__proto__" then o else <[k:=v]> o.

(** [parseFloat(v)]: a function or an object is first turned into its
    source text or into [[object Object]], neither of which starts a
    number. *)
Definition parseFloat_value (v : Value) : number :=
  match v with
  | Str s => parseFloat s
  | Inherited _ => NaN
  end.

End JS.

Import JS.

(* ===================================================================== *)
(** * [route.js] *)
(* ===================================================================== *)

(** The functions of the source, in its order.  The calls of [console.log]
    are left out; those of [console.warn] are kept as the list of warnings
    of a scan. *)

(** ** Data *)

(** The object [{ x, y, z }]; a field is [None] while it is [null]. *)
Record Line (A : Type) := mkLine { x : A; y : A; z : A }.
Arguments mkLine {A} _ _ _.
Arguments x {A} _.
Arguments y {A} _.
Arguments z {A} _.

(** The object [{ xa, ya, du }]. *)
Record Circle (A : Type) := mkCircle { xa : A; ya : A; du : A }.
Arguments mkCircle {A} _ _ _.
Arguments xa {A} _.
Arguments ya {A} _.
Arguments du {A} _.

(** One call of [console.warn]: the upper-cased key and the value that did
    not parse. *)
Record warning := Warn { warn_key : string; warn_value : Value }.

(** How a call ends: with a value or with a thrown [Error]. *)
Inductive completion (A : Type) :=
  | Return (a : A)
  | Throw (message : string).
Arguments Return {A} _.
Arguments Throw {A} _.

(** ** The regular expressions of the source *)

(** [(\w+)\s*=\s*<dq>([^<dq>]+)<dq>] at the current position, where [<dq>]
    is the double quote. *)
Definition assignment (s : string) : option (string * string) :=
  many1 is_word s (fun g1 r1 =>
  many is_space r1 (fun _ r2 =>
  lit is_eq_sign r2 (fun r3 =>
  many is_space r3 (fun _ r4 =>
  lit is_dquote r4 (fun r5 =>
  many1 not_dquote r5 (fun g2 r6 =>
  lit is_dquote r6 (fun _ => Some (g1, g2)))))))).

(** [line.match(...)] in [parseVariables]: the expression is not anchored. *)
Definition varMatch (line : string) : option (string * string) :=
  search assignment line.

(** [currentLine.match(/^(\w+)\s*=\s*(.+)$/)] in [findLine]. *)
Definition lineKeyValueMatch (currentLine : string) : option (string * string) :=
  many1 is_word currentLine (fun g1 r1 =>
  many is_space r1 (fun _ r2 =>
  lit is_eq_sign r2 (fun r3 =>
  many is_space r3 (fun _ r4 =>
  many1 is_dot r4 (fun g2 r5 =>
  eoi r5 (g1, g2)))))).

(** [currentLine.match(...)] in [findCircles]: anchored at the start only,
    the value must be quoted. *)
Definition circleKeyValueMatch (currentLine : string) : option (string * string) :=
  assignment currentLine.

(** [value.replace(/^<dq>(.+)<dq>$/, '$1')] *)
Definition removeQuotes (value : string) : string :=
  match
    lit is_dquote value (fun r1 =>
    many1 is_dot r1 (fun g1 r2 =>
    lit is_dquote r2 (fun r3 =>
    eoi r3 g1)))
  with
  | Some g1 => g1
  | None => value
  end.

(** ** [parseVariables] *)

(** A line that ends the [[001] section. *)
Definition variables_break (line : string) : bool :=
  startsWith line "[" || startsWith line "<" || startsWith line "$"
  || String.eqb line EmptyString.

(** The [for] loop of [parseVariables] from the line it stands on. *)
Fixpoint parseVariables_loop (lines : list string) (in001Section : bool)
    (variables : gmap string string) : gmap string string :=
  match lines with
  | [] => variables
  | l :: rest =>
      let line := trim l in
      if startsWith line "[001" then
        parseVariables_loop rest true variables
      else if in001Section then
        if variables_break line
        then variables
        else
          match varMatch line with
          | Some (varName, varValue) =>
              parseVariables_loop rest true (set varName varValue variables)
          | None => parseVariables_loop rest true variables
          end
      else parseVariables_loop rest false variables
  end.

Definition parseVariables (lines : list string) : gmap string string :=
  parseVariables_loop lines false ∅.

(** [if (variables[value] !== undefined) value = variables[value]] *)
Definition substitute (variables : gmap string string) (value : string) : Value :=
  match get variables value with
  | Some v => v
  | None => Str value
  end.

(** ** String literals of the source

    [js] reads the escapes of a JavaScript literal: a backslash followed by
    [n] is a line feed; in the sample documents of this file a backslash
    followed by [q] is a double quote. *)
Fixpoint js (s : string) : string :=
  match s with
  | String b (String c s' as t) =>
      if (code b =? 92)%N then
        if (code c =? 110)%N then String LF (js s')
        else if (code c =? 113)%N then String dquote (js s')
        else String b (js t)
      else String b (js t)
  | _ => s
  end.

(** ** [findLine] *)

(** [v === null || isNaN(v)] fails exactly when [present v] is a number. *)
Definition present (v : option number) : option number :=
  match v with
  | Some n => if isNaN n then None else Some n
  | None => None
  end.

(** The state of a scan: the object being filled and the warnings sent to
    the console so far. *)
Definition scan (A : Type) : Type := (A * list warning)%type.

(** The body of the inner loop of [findLine] on a line that does not close
    the window. *)
Definition findLine_body (variables : gmap string string) (currentLine : string)
    (st : scan (Line (option number))) : scan (Line (option number)) :=
  let '(params, warns) := st in
  match lineKeyValueMatch currentLine with
  | Some (g1, g2) =>
      let key := toLowerCase g1 in
      let value := trim g2 in
      let value := removeQuotes value in
      let value := substitute variables value in
      let numericValue := parseFloat_value value in
      if isNaN numericValue then
        (params, (warns ++ [Warn (toUpperCase key) value])%list)
      else if String.eqb key "x" then
        (mkLine (Some numericValue) (y params) (z params), warns)
      else if String.eqb key "y" then
        (mkLine (x params) (Some numericValue) (z params), warns)
      else if String.eqb key "z" then
        (mkLine (x params) (y params) (Some numericValue), warns)
      else (params, warns)
  | None => st
  end.

(** A line that closes the window of a [$E] section. *)
Definition line_break (currentLine : string) : bool :=
  startsWith currentLine "$E" || startsWith currentLine "[" ||
  startsWith currentLine "<" || String.eqb currentLine EmptyString.

(** The inner loop [for (j = ...; j < Math.min(i + 11, lines.length); j++)]
    with [n] iterations left. *)
Fixpoint findLine_inner (variables : gmap string string) (lines : list string)
    (j n : nat) (st : scan (Line (option number))) : scan (Line (option number)) :=
  match n with
  | O => st
  | S n' =>
      match lines !! j with
      | Some l =>
          let currentLine := trim l in
          if line_break currentLine then st
          else findLine_inner variables lines (j + 1) n'
                 (findLine_body variables currentLine st)
      | None => st
      end
  end.

(** The outer loop [for (i = ...; i < lines.length; i++)] with [n]
    iterations left; it ends after the first [$E] section. *)
Fixpoint findLine_outer (variables : gmap string string) (lines : list string)
    (i n : nat) (st : scan (Line (option number))) : scan (Line (option number)) :=
  match n with
  | O => st
  | S n' =>
      match lines !! i with
      | Some l =>
          let line := trim l in
          if startsWith line "$E" then
            findLine_inner variables lines (i + 1)
              (Nat.min (i + 11) (length lines) - (i + 1)) st
          else findLine_outer variables lines (i + 1) n' st
      | None => st
      end
  end.

(** The scan of [findLine] up to the validation. *)
Definition findLine_scan (content : string) : scan (Line (option number)) :=
  let lines := split content in
  let params := mkLine None None None in
  let variables := parseVariables lines in
  findLine_outer variables lines 0 (length lines) (params, []).

(** [findLine]: the object that is returned has passed the validation, so
    its three fields are numbers. *)
Definition findLine (content : string) : completion (Line number) :=
  let '(params, _) := findLine_scan content in
  match present (x params), present (y params), present (z params) with
  | Some vx, Some vy, Some vz => Return (mkLine vx vy vz)
  | _, _, _ =>
      Throw "One or more parameters (x, y, z) were not found in the file."
  end.

(** ** [findCircles] *)

Definition findCircles_body (variables : gmap string string) (currentLine : string)
    (st : scan (Circle (option number))) : scan (Circle (option number)) :=
  let '(circle, warns) := st in
  match circleKeyValueMatch currentLine with
  | Some (g1, g2) =>
      let key := toLowerCase g1 in
      let value := trim g2 in
      let value := substitute variables value in
      let numericValue := parseFloat_value value in
      if isNaN numericValue then
        (circle, (warns ++ [Warn (toUpperCase key) value])%list)
      else if String.eqb key "xa" then
        (mkCircle (Some numericValue) (ya circle) (du circle), warns)
      else if String.eqb key "ya" then
        (mkCircle (xa circle) (Some numericValue) (du circle), warns)
      else if String.eqb key "du" then
        (mkCircle (xa circle) (ya circle) (Some numericValue), warns)
      else (circle, warns)
  | None => st
  end.

(** A line that closes the window of a [<102] section. *)
Definition circle_break (currentLine : string) : bool :=
  startsWith currentLine "<" || startsWith currentLine "[" ||
  startsWith currentLine "$" || String.eqb currentLine EmptyString.

Fixpoint findCircles_inner (variables : gmap string string) (lines : list string)
    (j n : nat) (st : scan (Circle (option number))) : scan (Circle (option number)) :=
  match n with
  | O => st
  | S n' =>
      match lines !! j with
      | Some l =>
          let currentLine := trim l in
          if circle_break currentLine then st
          else findCircles_inner variables lines (j + 1) n'
                 (findCircles_body variables currentLine st)
      | None => st
      end
  end.

(** [if (Object.values(circle).every(...)) circles.push(circle)] *)
Definition push_complete (circle : Circle (option number))
    (circles : list (Circle number)) : list (Circle number) :=
  match present (xa circle), present (ya circle), present (du circle) with
  | Some vxa, Some vya, Some vdu => (circles ++ [mkCircle vxa vya vdu])%list
  | _, _, _ => circles
  end.

Fixpoint findCircles_outer (variables : gmap string string) (lines : list string)
    (i n : nat) (st : scan (list (Circle number))) : scan (list (Circle number)) :=
  match n with
  | O => st
  | S n' =>
      match lines !! i with
      | Some l =>
          let line := trim l in
          if startsWith line "<102" then
            let '(circles, warns) := st in
            let '(circle, warns') :=
              findCircles_inner variables lines (i + 1)
                (Nat.min (i + 16) (length lines) - (i + 1))
                (mkCircle None None None, warns) in
            findCircles_outer variables lines (i + 1) n'
              (push_complete circle circles, warns')
          else findCircles_outer variables lines (i + 1) n' st
      | None => st
      end
  end.

Definition findCircles_scan (content : string) : scan (list (Circle number)) :=
  let lines := split content in
  let variables := parseVariables lines in
  findCircles_outer variables lines 0 (length lines) ([], []).

Definition findCircles (content : string) : list (Circle number) :=
  fst (findCircles_scan content).

(** ** [createDxf] and [POST] *)

(** What the route answers: the DXF text with status 200, or a JSON error
    with its status. *)
Inductive response :=
  | DxfResponse (body : string)
  | JsonError (status : nat) (error : string).

Section Rendering.

(** The text of a Number in a template literal, and the division of
    Numbers; the writer does not depend on how they round. *)
Variable toString : number -> string.
Variable divide : number -> number -> number.

Definition two : number := Decimal false 2 0.

Definition createDxf_circle (dxf : string) (circle : Circle number) : string :=
  let radius := divide (du circle) two in
  let dxf := dxf ++ js "0\nCIRCLE\n" in
  let dxf := dxf ++ js "8\n0\n" in
  let dxf := dxf ++ js "10\n" ++ toString (xa circle) ++ js "\n" in
  let dxf := dxf ++ js "20\n" ++ toString (ya circle) ++ js "\n" in
  let dxf := dxf ++ js "30\n0.0\n" in
  let dxf := dxf ++ js "40\n" ++ toString radius ++ js "\n" in
  dxf.

Definition createDxf (line : Line number) (circles : list (Circle number)) : string :=
  let dxf := EmptyString in
  let dxf := dxf ++ js "0\nSECTION\n2\nHEADER\n0\nENDSEC\n" in
  let dxf := dxf ++ js "0\nSECTION\n2\nENTITIES\n" in
  let dxf := dxf ++ js "0\nLINE\n" in
  let dxf := dxf ++ js "8\n0\n" in
  let dxf := dxf ++ js "10\n0.0\n" in
  let dxf := dxf ++ js "20\n0.0\n" in
  let dxf := dxf ++ js "30\n" ++ toString (z line) ++ js "\n" in
  let dxf := dxf ++ js "11\n" ++ toString (x line) ++ js "\n" in
  let dxf := dxf ++ js "21\n" ++ toString (y line) ++ js "\n" in
  let dxf := dxf ++ js "31\n" ++ toString (z line) ++ js "\n" in
  let dxf := fold_left createDxf_circle circles dxf in
  let dxf := dxf ++ js "0\nENDSEC\n" in
  let dxf := dxf ++ js "0\nEOF" in
  dxf.

(** [POST] from the uploaded file on: [None] when the form has no
    [mprFile], else the decoded content. *)
Definition POST (file : option string) : response :=
  match file with
  | None => JsonError 400 "No file uploaded"
  | Some mprContent =>
      match findLine mprContent with
      | Return line =>
          let circles := findCircles mprContent in
          let dxfContent := createDxf line circles in
          DxfResponse dxfContent
      | Throw message =>
          JsonError 500
            (match message with
             | EmptyString => "Error processing the MPR file."
             | _ => message
             end)
      end
  end.

End Rendering.

(* ===================================================================== *)
(** * Notions used in the statements *)
(* ===================================================================== *)

(** ** Windows and markers *)

(** The window opened on the lines [ls] that follow a marker: at most [k]
    lines, trimmed, up to the end of the document or the first line that
    [stop] recognises, whichever comes first. *)
Fixpoint window (stop : string -> bool) (k : nat) (ls : list string) : list string :=
  match k with
  | O => []
  | S k' =>
      match ls with
      | [] => []
      | l :: ls' =>
          if stop (trim l) then [] else trim l :: window stop k' ls'
      end
  end.

(** A line at which the window ends although it could hold more: the end
    of the document or a line that [stop] recognises. *)
Definition closes (stop : string -> bool) (rest : list string) : Prop :=
  match rest with
  | [] => True
  | l :: _ => stop (trim l) = true
  end.

(** Whether line [i] is a marker: its trimmed content starts with [tag]. *)
Definition marked (tag : string) (lines : list string) (i : nat) : bool :=
  match lines !! i with
  | Some l => startsWith (trim l) tag
  | None => false
  end.

(** The positions of the markers, in document order. *)
Definition markers (tag : string) (lines : list string) : list nat :=
  List.filter (marked tag lines) (seq 0 (length lines)).

(** The window of the marker at line [i]. *)
Definition windowAt (stop : string -> bool) (k : nat) (lines : list string)
    (i : nat) : list string :=
  window stop k (drop (S i) lines).

(** The window line extraction reads: that of the first [$E] marker, and
    no line at all when the document has no such marker. *)
Definition lineWindow (lines : list string) : list string :=
  match markers "$E" lines with
  | i :: _ => windowAt line_break 10 lines i
  | [] => []
  end.

(** Running a loop body over the lines of a window. *)
Definition over {A : Type} (body : string -> A -> A) (w : list string) (st : A) : A :=
  fold_left (fun st currentLine => body currentLine st) w st.

(** ** Assignments made by the lines of a window *)

(** The value of a [KEY=VALUE] line of a [$E] window after the quotes are
    removed and the variable is substituted. *)
Definition lineValue (variables : gmap string string) (g2 : string) : Value :=
  substitute variables (removeQuotes (trim g2)).

(** The value of a [KEY=<dq>VALUE<dq>] line of a [<102] window. *)
Definition circleValue (variables : gmap string string) (g2 : string) : Value :=
  substitute variables (trim g2).

(** The assignment a window line makes: its key in lower case and the
    number its value parses to.  A line that does not match, or whose value
    does not parse, makes none. *)
Definition assignment_of (kv : option (string * string)) (val : string -> Value)
    : option (string * number) :=
  match kv with
  | Some (g1, g2) =>
      let n := parseFloat_value (val g2) in
      if isNaN n then None else Some (toLowerCase g1, n)
  | None => None
  end.

Definition line_assignment (variables : gmap string string) (currentLine : string)
    : option (string * number) :=
  assignment_of (lineKeyValueMatch currentLine) (lineValue variables).

Definition circle_assignment (variables : gmap string string) (currentLine : string)
    : option (string * number) :=
  assignment_of (circleKeyValueMatch currentLine) (circleValue variables).

(** The number the window [w] leaves in the field [k] that held [init]:
    that of the last line of [w] that assigns [k]. *)
Definition assigned_from (assign : string -> option (string * number))
    (k : string) (w : list string) (init : option number) : option number :=
  fold_left
    (fun acc currentLine =>
       match assign currentLine with
       | Some (k', n) => if String.eqb k' k then Some n else acc
       | None => acc
       end) w init.

Definition assigned (assign : string -> option (string * number))
    (k : string) (w : list string) : option number :=
  assigned_from assign k w None.

(** A field is set when it holds a number other than [NaN]. *)
Definition is_set (v : option number) : Prop :=
  match v with
  | Some n => isNaN n = false
  | None => True
  end.

(** The field of the object [params] that the key [k] names. *)
Definition field (k : string) (params : Line (option number)) : option number :=
  if String.eqb k "x" then x params
  else if String.eqb k "y" then y params
  else if String.eqb k "z" then z params
  else None.

Definition found (v : option number) : bool :=
  match v with Some _ => true | None => false end.

(** A field holds a finite number. *)
Definition finite_field (v : option number) : bool :=
  match v with
  | Some n => isFinite n
  | None => false
  end.

(** The circle of the [<102] marker at line [i], when its window assigns
    all of [xa], [ya] and [du]. *)
Definition circle_at (variables : gmap string string) (lines : list string)
    (i : nat) : option (Circle number) :=
  let a k :=
    assigned (circle_assignment variables) k (windowAt circle_break 15 lines i) in
  match a "xa", a "ya", a "du" with
  | Some vxa, Some vya, Some vdu => Some (mkCircle vxa vya vdu)
  | _, _, _ => None
  end.

(** The three fields of the marker at line [i] all received a number. *)
Definition complete_at (variables : gmap string string) (lines : list string)
    (i : nat) : bool :=
  let a k :=
    assigned (circle_assignment variables) k (windowAt circle_break 15 lines i) in
  found (a "xa") && found (a "ya") && found (a "du").

(** ** Outcomes *)

Definition throws {A : Type} (c : completion A) : Prop :=
  exists message, c = Throw message.

(** ** The variables section *)

(** A line that opens the variables section. *)
Definition is_header (l : string) : bool := startsWith (trim l) "[001".

(** A line on which the scan of the section goes on: a header, which is
    skipped, or a line that does not end the section. *)
Definition in_section (l : string) : bool :=
  is_header l || negb (variables_break (trim l)).

(** The assignment a line of the section makes, if any. *)
Definition var_assignment (l : string) : option (string * string) :=
  if is_header l then None else varMatch (trim l).

(** The table after a line of the section. *)
Definition assign_variable (variables : gmap string string) (l : string)
    : gmap string string :=
  match var_assignment l with
  | Some (varName, varValue) => set varName varValue variables
  | None => variables
  end.

(** The line at which the scan of the section stops: the end of the
    document, or a line that ends the section and is not a header. *)
Definition ends_section (rest : list string) : Prop :=
  match rest with
  | [] => True
  | l :: _ => is_header l = false /\ variables_break (trim l) = true
  end.

(** ** The text of a DXF document *)

(** A DXF group: a group code on a line of its own and its value on the
    next line. *)
Definition group : Type := (string * string)%type.

Definition nl : string := String LF EmptyString.

(** The text of a document: its lines joined by line feeds. *)
Fixpoint join_lines (ls : list string) : string :=
  match ls with
  | [] => EmptyString
  | [l] => l
  | l :: ls' => l ++ nl ++ join_lines ls'
  end.

(** The lines of a sequence of groups. *)
Definition group_lines (gs : list group) : list string :=
  flat_map (fun g => [fst g; snd g]) gs.

(** The group codes the writer may use. *)
Definition group_codes : list string :=
  ["0"; "2"; "8"; "10"; "11"; "20"; "21"; "30"; "31"; "40"].

(** An empty [HEADER] section and the opening of [ENTITIES]. *)
Definition dxf_prologue : list group :=
  [ ("0", "SECTION"); ("2", "HEADER"); ("0", "ENDSEC");
    ("0", "SECTION"); ("2", "ENTITIES") ].

(** [LINE] on layer 0 from [(0.0, 0.0, z)] to [(x, y, z)]. *)
Definition dxf_line (toString : number -> string) (ln : Line number) : list group :=
  [ ("0", "LINE"); ("8", "0");
    ("10", "0.0"); ("20", "0.0"); ("30", toString (z ln));
    ("11", toString (x ln)); ("21", toString (y ln)); ("31", toString (z ln)) ].

(** [CIRCLE] on layer 0 centred at [(xa, ya, 0.0)] with radius [du / 2]. *)
Definition dxf_circle (toString : number -> string)
    (divide : number -> number -> number) (c : Circle number) : list group :=
  [ ("0", "CIRCLE"); ("8", "0");
    ("10", toString (xa c)); ("20", toString (ya c)); ("30", "0.0");
    ("40", toString (divide (du c) (Decimal false 2 0))) ].

Definition dxf_epilogue : list group := [ ("0", "ENDSEC"); ("0", "EOF") ].

(** The fixed skeleton of the output. *)
Definition dxf_skeleton (toString : number -> string)
    (divide : number -> number -> number)
    (ln : Line number) (circles : list (Circle number)) : list group :=
  (dxf_prologue ++ dxf_line toString ln
   ++ flat_map (dxf_circle toString divide) circles ++ dxf_epilogue)%list.

(** Groups written one after the other, each line ended by a line feed. *)
Definition emit_all (gs : list group) : string :=
  fold_right (fun g acc => fst g ++ nl ++ snd g ++ nl ++ acc) EmptyString gs.

(** ** Texts *)

Fixpoint all_chars (p : ascii -> bool) (s : string) : bool :=
  match s with
  | String c s' => p c && all_chars p s'
  | EmptyString => true
  end.

(** The text [s] does not go on with a character of class [p]. *)
Definition stops (p : ascii -> bool) (s : string) : Prop :=
  match s with
  | String c _ => p c = false
  | EmptyString => True
  end.

Definition not_space (c : ascii) : bool := negb (is_space c).

(** A text between double quotes. *)
Definition quoted (s : string) : string :=
  String dquote (s ++ String dquote EmptyString).

(** ** Sample documents *)

(** A [$E] section whose [X] is the literal [Infinity]. *)
Definition infinite_line_document : string := js "$E\nX=Infinity\nY=1\nZ=1".

(** A [<102] section whose diameter is the literal [Infinity]. *)
Definition infinite_circle_document : string :=
  js "<102\nXA=\q1\q\nYA=\q2\q\nDU=\qInfinity\q".

(** A document whose [$E] window reads [Z] from a variable, and the same
    document with another name in its variables section, which lies after
    the blank line that closes the window. *)
Definition variable_after_window (name : string) : string :=
  js "$E\nX=1\nY=2\nZ=Z\n\n[001\n" ++ name ++ js "=\q3\q".

(** A variables section, a second [[001] header, and another assignment. *)
Definition second_header_document : string := js "[001\nA=\q1\q\n[001\nB=\q2\q".

(** ** Further notions *)

(** How many of [x], [y], [z] hold a number. *)
Definition fields_found (params : Line (option number)) : nat :=
  Nat.b2n (found (x params)) + Nat.b2n (found (y params))
  + Nat.b2n (found (z params)).

(** Every character but the equals sign. *)
Definition not_eq_sign (c : ascii) : bool := negb (is_eq_sign c).

(** Every character but the line feed. *)
Definition not_LF (c : ascii) : bool := negb (code c =? 10)%N.

(** What the expression of [parseVariables] lets into the table: a name
    made of word characters and a value without double quote, neither of
    them empty. *)
Definition entry_shape (name value : string) : Prop :=
  name <> EmptyString /\ all_chars is_word name = true
  /\ value <> EmptyString /\ all_chars not_dquote value = true.

(** A line [NAME = <dq>VALUE<dq>] with the white space [ws1] and [ws2]
    around the equals sign. *)
Definition assignment_line (name ws1 ws2 value : string) : string :=
  name ++ ws1 ++ String "="%char (ws2 ++ quoted value).

(** A line [KEY = VALUE] without quotes. *)
Definition plain_line (key ws1 ws2 value : string) : string :=
  key ++ ws1 ++ String "="%char (ws2 ++ value).

(** A non-empty text that [trimEnd] leaves as it is. *)
Definition trimmed_end (t : string) : Prop :=
  trimEnd t = t /\ t <> EmptyString.

(** The warning a line of a [$E] window sends: one for a line that
    matches and whose value, after substitution, does not parse. *)
Definition line_warning (variables : gmap string string) (currentLine : string)
    : option warning :=
  match lineKeyValueMatch currentLine with
  | Some (g1, g2) =>
      if isNaN (parseFloat_value (lineValue variables g2))
      then Some (Warn (toUpperCase (toLowerCase g1)) (lineValue variables g2))
      else None
  | None => None
  end.

(** The object [params] after the number [n] is stored under the key [k];
    a key other than [x], [y], [z] stores nothing. *)
Definition with_field (k : string) (n : number) (params : Line (option number))
    : Line (option number) :=
  if String.eqb k "x" then mkLine (Some n) (y params) (z params)
  else if String.eqb k "y" then mkLine (x params) (Some n) (z params)
  else if String.eqb k "z" then mkLine (x params) (y params) (Some n)
  else params.


(* ===================================================================== *)
(** * The lookahead windows *)
(* ===================================================================== *)

Lemma window_bound stop k ls :
  window stop (Nat.min k (length ls)) ls = window stop k ls.
Proof.
  revert ls; induction k as [|k IH]; intros [|l ls]; simpl; try reflexivity.
  destruct (stop (trim l)); [reflexivity|]. now rewrite IH.
Qed.

(** The iteration count of an inner loop is the window size cut at the end
    of the document. *)
Lemma inner_count (lines : list string) i k :
  i < length lines ->
  Nat.min (i + S k) (length lines) - (i + 1)
  = Nat.min k (length (drop (S i) lines)).
Proof. intros Hi. rewrite length_drop. lia. Qed.

Lemma findLine_inner_window variables lines j n st :
  findLine_inner variables lines j n st
  = over (findLine_body variables) (window line_break n (drop j lines)) st.
Proof.
  revert j st; induction n as [|n IH]; intros j st; simpl; [reflexivity|].
  destruct (lines !! j) as [l|] eqn:Hl.
  - rewrite (drop_S _ _ _ Hl).
    destruct (line_break (trim l)); [reflexivity|].
    rewrite IH, Nat.add_1_r. reflexivity.
  - rewrite drop_ge by (now apply lookup_ge_None). reflexivity.
Qed.

Lemma findCircles_inner_window variables lines j n st :
  findCircles_inner variables lines j n st
  = over (findCircles_body variables) (window circle_break n (drop j lines)) st.
Proof.
  revert j st; induction n as [|n IH]; intros j st; simpl; [reflexivity|].
  destruct (lines !! j) as [l|] eqn:Hl.
  - rewrite (drop_S _ _ _ Hl).
    destruct (circle_break (trim l)); [reflexivity|].
    rewrite IH, Nat.add_1_r. reflexivity.
  - rewrite drop_ge by (now apply lookup_ge_None). reflexivity.
Qed.

(** The markers among the lines [i, i + n). *)
Lemma filter_seq_step (f : nat -> bool) i n :
  List.filter f (seq i (S n))
  = if f i then i :: List.filter f (seq (S i) n) else List.filter f (seq (S i) n).
Proof. reflexivity. Qed.

Lemma findLine_outer_window variables lines i n st :
  i + n = length lines ->
  findLine_outer variables lines i n st
  = match List.filter (marked "$E" lines) (seq i n) with
    | m :: _ => over (findLine_body variables) (windowAt line_break 10 lines m) st
    | [] => st
    end.
Proof.
  revert i; induction n as [|n IH]; intros i Hlen; [reflexivity|].
  rewrite filter_seq_step. cbn [findLine_outer]. unfold marked at 1.
  destruct (lines !! i) as [l|] eqn:Hl.
  - destruct (startsWith (trim l) "$E").
    + rewrite findLine_inner_window. unfold windowAt.
      replace (i + 11) with (i + S 10) by lia.
      rewrite inner_count by lia. rewrite Nat.add_1_r, window_bound.
      reflexivity.
    + rewrite Nat.add_1_r. apply IH. lia.
  - apply lookup_ge_None in Hl. lia.
Qed.

(** Line extraction scans its window and nothing else. *)
Lemma findLine_scan_window content :
  findLine_scan content
  = over (findLine_body (parseVariables (split content)))
      (lineWindow (split content)) (mkLine None None None, []).
Proof.
  unfold findLine_scan, lineWindow, markers.
  rewrite findLine_outer_window by reflexivity.
  destruct (List.filter _ _); reflexivity.
Qed.

(* ===================================================================== *)
(** * What a window assigns *)
(* ===================================================================== *)

Lemma assignment_of_number kv val k n :
  assignment_of kv val = Some (k, n) -> isNaN n = false.
Proof.
  unfold assignment_of. destruct kv as [[g1 g2]|]; [|discriminate].
  destruct (isNaN (parseFloat_value (val g2))) eqn:E; [discriminate|].
  intros [= _ <-]. exact E.
Qed.

Lemma assigned_from_set assign k w init :
  (forall c k' n, assign c = Some (k', n) -> isNaN n = false) ->
  is_set init -> is_set (assigned_from assign k w init).
Proof.
  intros Hassign. unfold assigned_from.
  revert init; induction w as [|c w IH]; intros init Hinit; simpl; [exact Hinit|].
  apply IH. destruct (assign c) as [[k' n]|] eqn:E; [|exact Hinit].
  destruct (String.eqb k' k); [|exact Hinit]. simpl. eauto.
Qed.

Lemma present_set v : is_set v -> present v = v.
Proof. destruct v as [n|]; simpl; [|reflexivity]. now intros ->. Qed.

(** Case analysis on a loop body: no match, a value that does not parse,
    or one of the key comparisons. *)
Ltac body_cases kv :=
  destruct kv as [[?g1 ?g2]|]; simpl; [|reflexivity];
  destruct (isNaN _); simpl; [reflexivity|];
  repeat match goal with
         | |- context [String.eqb ?a ?b] =>
             destruct (String.eqb_spec a b); simpl; subst; try reflexivity; try congruence
         end.

Lemma findLine_body_fields variables c p ws :
  let p' := fst (findLine_body variables c (p, ws)) in
  let upd k old :=
    match line_assignment variables c with
    | Some (k', n) => if String.eqb k' k then Some n else old
    | None => old
    end in
  x p' = upd "x" (x p) /\ y p' = upd "y" (y p) /\ z p' = upd "z" (z p).
Proof.
  unfold findLine_body, line_assignment, assignment_of, lineValue.
  repeat split; body_cases (lineKeyValueMatch c).
Qed.

Lemma findCircles_body_fields variables c p ws :
  let p' := fst (findCircles_body variables c (p, ws)) in
  let upd k old :=
    match circle_assignment variables c with
    | Some (k', n) => if String.eqb k' k then Some n else old
    | None => old
    end in
  xa p' = upd "xa" (xa p) /\ ya p' = upd "ya" (ya p) /\ du p' = upd "du" (du p).
Proof.
  unfold findCircles_body, circle_assignment, assignment_of, circleValue.
  repeat split; body_cases (circleKeyValueMatch c).
Qed.

(** The fields after a window are the last assignments made in it. *)
Lemma over_findLine_fields variables w st :
  let p' := fst (over (findLine_body variables) w st) in
  let a := assigned_from (line_assignment variables) in
  x p' = a "x" w (x (fst st)) /\ y p' = a "y" w (y (fst st))
  /\ z p' = a "z" w (z (fst st)).
Proof.
  revert st; induction w as [|c w IH]; intros [p ws]; [now repeat split|].
  cbn zeta in *. unfold over, assigned_from in *. cbn [fold_left].
  destruct (findLine_body_fields variables c p ws) as (Hx & Hy & Hz).
  cbn zeta in Hx, Hy, Hz.
  specialize (IH (findLine_body variables c (p, ws))).
  destruct IH as (IHx & IHy & IHz).
  rewrite IHx, IHy, IHz, Hx, Hy, Hz. now repeat split.
Qed.

Lemma over_findCircles_fields variables w st :
  let p' := fst (over (findCircles_body variables) w st) in
  let a := assigned_from (circle_assignment variables) in
  xa p' = a "xa" w (xa (fst st)) /\ ya p' = a "ya" w (ya (fst st))
  /\ du p' = a "du" w (du (fst st)).
Proof.
  revert st; induction w as [|c w IH]; intros [p ws]; [now repeat split|].
  cbn zeta in *. unfold over, assigned_from in *. cbn [fold_left].
  destruct (findCircles_body_fields variables c p ws) as (Hx & Hy & Hz).
  cbn zeta in Hx, Hy, Hz.
  specialize (IH (findCircles_body variables c (p, ws))).
  destruct IH as (IHx & IHy & IHz).
  rewrite IHx, IHy, IHz, Hx, Hy, Hz. now repeat split.
Qed.

(** ** Line extraction in terms of its window *)

(** The fields [findLine] validates are the last assignments made in the
    window of the first [$E] marker. *)
Lemma findLine_scan_fields content :
  let p := fst (findLine_scan content) in
  let a k :=
    assigned (line_assignment (parseVariables (split content))) k
      (lineWindow (split content)) in
  x p = a "x" /\ y p = a "y" /\ z p = a "z".
Proof.
  cbn zeta. rewrite findLine_scan_window.
  exact (over_findLine_fields _ _ (mkLine None None None, [])).
Qed.

Lemma line_assigned_set variables k w :
  is_set (assigned (line_assignment variables) k w).
Proof.
  apply assigned_from_set; [|exact I].
  intros c k' n. apply assignment_of_number.
Qed.

Lemma circle_assigned_set variables k w :
  is_set (assigned (circle_assignment variables) k w).
Proof.
  apply assigned_from_set; [|exact I].
  intros c k' n. apply assignment_of_number.
Qed.

(** [findLine] returns the three assigned numbers, and throws when one of
    them is missing. *)
Lemma findLine_assigned content :
  let a k :=
    assigned (line_assignment (parseVariables (split content))) k
      (lineWindow (split content)) in
  findLine content
  = match a "x", a "y", a "z" with
    | Some vx, Some vy, Some vz => Return (mkLine vx vy vz)
    | _, _, _ =>
        Throw "One or more parameters (x, y, z) were not found in the file."
    end.
Proof.
  cbn zeta. unfold findLine.
  destruct (findLine_scan_fields content) as (Hx & Hy & Hz). cbn zeta in *.
  destruct (findLine_scan content) as [p ws]. simpl in Hx, Hy, Hz.
  rewrite Hx, Hy, Hz.
  rewrite !present_set by apply line_assigned_set. reflexivity.
Qed.

(** ** Circle extraction in terms of its windows *)

Lemma push_complete_window variables lines i circles ws :
  push_complete
    (fst (over (findCircles_body variables) (windowAt circle_break 15 lines i)
            (mkCircle None None None, ws))) circles
  = (circles ++ option_list (circle_at variables lines i))%list.
Proof.
  unfold push_complete, circle_at.
  destruct (over_findCircles_fields variables (windowAt circle_break 15 lines i)
              (mkCircle None None None, ws)) as (Hx & Hy & Hz).
  cbn zeta in *. simpl in Hx, Hy, Hz. rewrite Hx, Hy, Hz.
  rewrite !present_set by apply circle_assigned_set.
  unfold assigned.
  destruct (assigned_from _ "xa" _ _), (assigned_from _ "ya" _ _),
    (assigned_from _ "du" _ _); simpl; try reflexivity; now rewrite app_nil_r.
Qed.

Lemma findCircles_outer_windows variables lines i n circles ws :
  i + n = length lines ->
  fst (findCircles_outer variables lines i n (circles, ws))
  = (circles
     ++ omap (circle_at variables lines)
          (List.filter (marked "<102" lines) (seq i n)))%list.
Proof.
  revert i circles ws; induction n as [|n IH]; intros i circles ws Hlen.
  - simpl. now rewrite app_nil_r.
  - rewrite filter_seq_step. cbn [findCircles_outer]. unfold marked at 1.
    destruct (lines !! i) as [l|] eqn:Hl.
    + destruct (startsWith (trim l) "<102").
      * rewrite findCircles_inner_window.
        replace (i + 16) with (i + S 15) by lia.
        rewrite inner_count by lia. rewrite Nat.add_1_r, window_bound.
        fold (windowAt circle_break 15 lines i).
        pose proof (push_complete_window variables lines i circles ws) as Hp.
        destruct (over _ _ _) as [c ws'] eqn:E. simpl in Hp.
        rewrite IH by lia. rewrite Hp. cbn [omap list_omap].
        destruct (circle_at variables lines i); simpl;
          now rewrite <- app_assoc.
      * rewrite Nat.add_1_r. apply IH. lia.
    + apply lookup_ge_None in Hl. lia.
Qed.

(** Every [<102] marker contributes the circle of its own window, in
    document order. *)
Lemma findCircles_windows content :
  findCircles content
  = omap (circle_at (parseVariables (split content)) (split content))
      (markers "<102" (split content)).
Proof.
  unfold findCircles, findCircles_scan, markers.
  now rewrite findCircles_outer_windows.
Qed.

(* ===================================================================== *)
(** * Properties of the conversion *)
(* ===================================================================== *)

(** ** Line extraction fails exactly when a coordinate is missing *)

(** C1, as stated, fails: in [infinite_line_document] the field [x] is not
    set to a finite number when the window closes (it holds [Infinity]),
    and yet [findLine] raises no error.  The validation of the source
    rejects [null] and [NaN] only. *)
Lemma findLine_accepts_infinity :
  let p := fst (findLine_scan infinite_line_document) in
  ~ (throws (findLine infinite_line_document)
     <-> (finite_field (x p) = false \/ finite_field (y p) = false
          \/ finite_field (z p) = false)).
Proof.
  cbn zeta. intros [_ H].
  destruct H as [message Hm]; [left; vm_compute; reflexivity|].
  vm_compute in Hm. discriminate.
Qed.

(** C1 (amended): [findLine] raises its error if and only if at least one
    of [x], [y], [z] has received no number by the time the window of the
    first [$E] marker closes, that is, no line of that window assigns it a
    value that parses to something other than [NaN] (an infinity counts as
    a number); this is so in particular when the document has no [$E]
    marker.  On that error [POST] answers with the JSON error, status 500,
    and produces no DXF text. *)
Theorem findLine_throws_iff_unassigned (content : string) :
  let lines := split content in
  let a k := assigned (line_assignment (parseVariables lines)) k (lineWindow lines) in
  (throws (findLine content) <-> (a "x" = None \/ a "y" = None \/ a "z" = None))
  /\ (markers "$E" lines = [] -> throws (findLine content))
  /\ (forall message, findLine content = Throw message ->
      forall toString divide,
        POST toString divide (Some content) = JsonError 500 message).
Proof.
  cbn zeta. pose proof (findLine_assigned content) as H. cbn zeta in H.
  assert (Hiff : throws (findLine content) <->
    (assigned (line_assignment (parseVariables (split content))) "x"
       (lineWindow (split content)) = None
     \/ assigned (line_assignment (parseVariables (split content))) "y"
          (lineWindow (split content)) = None
     \/ assigned (line_assignment (parseVariables (split content))) "z"
          (lineWindow (split content)) = None)).
  { rewrite H. unfold throws.
    destruct (assigned _ "x" _), (assigned _ "y" _), (assigned _ "z" _);
      split; intros Hc;
      try (destruct Hc as [m Hm]; discriminate Hm);
      try (destruct Hc as [Hc|[Hc|Hc]]; discriminate Hc);
      eauto. }
  split; [exact Hiff|]. split.
  - intros Hnone. apply Hiff. left. unfold lineWindow. rewrite Hnone. reflexivity.
  - intros message Hm toString divide. unfold POST. rewrite Hm.
    rewrite H in Hm.
    destruct (assigned _ "x" _), (assigned _ "y" _), (assigned _ "z" _);
      try discriminate Hm; injection Hm as <-; reflexivity.
Qed.

(** A document without a [$E] section: the error is raised and becomes the
    JSON answer. *)
Lemma findLine_throws_iff_unassigned_witness :
  markers "$E" (split (js "[001\nA=\q1\q\n\nX=1\nY=2\nZ=3")) = []
  /\ throws (findLine (js "[001\nA=\q1\q\n\nX=1\nY=2\nZ=3"))
  /\ POST (fun _ => "0") (fun a _ => a) (Some (js "[001\nA=\q1\q\n\nX=1\nY=2\nZ=3"))
     = JsonError 500 "One or more parameters (x, y, z) were not found in the file.".
Proof.
  pose proof (findLine_throws_iff_unassigned (js "[001\nA=\q1\q\n\nX=1\nY=2\nZ=3"))
    as (_ & Hnone & Hpost).
  split; [vm_compute; reflexivity|]. split.
  - apply Hnone. vm_compute. reflexivity.
  - apply Hpost. vm_compute. reflexivity.
Defined.

(** ** The shape of a window *)

(** The window is the trimmed text of the longest run of lines after the
    marker that has at most [k] lines and none that [stop] recognises. *)
Lemma window_spec stop k ls :
  exists w rest,
    ls = (w ++ rest)%list
    /\ window stop k ls = map trim w
    /\ Forall (fun l => stop (trim l) = false) w
    /\ length w <= k
    /\ (length w = k \/ closes stop rest).
Proof.
  revert ls; induction k as [|k IH]; intros ls.
  - exists [], ls. repeat split; simpl; auto.
  - destruct ls as [|l ls].
    + exists [], []. repeat split; simpl; auto. lia.
    + simpl. destruct (stop (trim l)) eqn:E.
      * exists [], (l :: ls). repeat split; simpl; auto. lia.
      * destruct (IH ls) as (w & rest & -> & Hw & Hall & Hlen & Hend).
        exists (l :: w), rest. rewrite Hw. repeat split; simpl; auto.
        -- lia.
        -- destruct Hend; [left; lia | right; assumption].
Qed.

(** Conversely, such a run is the window whatever follows it. *)
Lemma window_app stop k w rest :
  Forall (fun l => stop (trim l) = false) w ->
  length w = k \/ (length w < k /\ closes stop rest) ->
  window stop k (w ++ rest) = map trim w.
Proof.
  revert k; induction w as [|l w IH]; intros k Hall Hend.
  - simpl. destruct Hend as [<-|[Hlt Hc]]; [reflexivity|].
    destruct k; [lia|]. destruct rest as [|r rest]; [reflexivity|].
    simpl in *. now rewrite Hc.
  - apply Forall_cons in Hall as [Hl Hall]. simpl in Hend.
    destruct k as [|k]; [lia|]. simpl. rewrite Hl. f_equal.
    apply IH; [assumption|]. destruct Hend as [?|[? ?]]; [left|right]; auto with lia.
Qed.

(** ** Circles: every marker, its own window, document order *)

Lemma markers_spec tag lines i :
  In i (markers tag lines)
  <-> exists l, lines !! i = Some l /\ startsWith (trim l) tag = true.
Proof.
  unfold markers. rewrite filter_In, in_seq. unfold marked. split.
  - intros [_ H]. destruct (lines !! i) as [l|]; [eauto|discriminate].
  - intros (l & Hl & Hs). rewrite Hl. split; [|assumption].
    apply lookup_lt_Some in Hl. lia.
Qed.

Lemma filter_seq_sorted (f : nat -> bool) i n :
  StronglySorted lt (List.filter f (seq i n)).
Proof.
  revert i; induction n as [|n IH]; intros i; [constructor|].
  rewrite filter_seq_step.
  assert (Hgt : Forall (lt i) (List.filter f (seq (S i) n))).
  { apply List.Forall_forall. intros j Hj.
    apply filter_In in Hj as [Hj _]. apply in_seq in Hj. lia. }
  destruct (f i); [constructor|]; auto.
Qed.

(** C4: circle extraction processes every line whose trimmed content
    starts with [<102]: the result is, marker after marker in the order of
    their positions in the document, the circle of the window of that
    marker, where a marker whose window is incomplete contributes nothing.
    The window of a marker holds the lines that follow it, at most 15 of
    them, and ends before the end of the document, a blank line or a line
    starting with [<], [[] or [$], whichever comes first. *)
Theorem findCircles_every_marker_in_order (content : string) :
  let lines := split content in
  findCircles content
  = omap (circle_at (parseVariables lines) lines) (markers "<102" lines)
  /\ (forall i, In i (markers "<102" lines)
       <-> exists l, lines !! i = Some l /\ startsWith (trim l) "<102" = true)
  /\ StronglySorted lt (markers "<102" lines)
  /\ (forall i, exists w rest,
        drop (S i) lines = (w ++ rest)%list
        /\ windowAt circle_break 15 lines i = map trim w
        /\ Forall (fun l => circle_break (trim l) = false) w
        /\ length w <= 15
        /\ (length w = 15 \/ closes circle_break rest)).
Proof.
  cbn zeta. split; [apply findCircles_windows|]. split; [apply markers_spec|].
  split; [apply filter_seq_sorted|].
  intros i. apply window_spec.
Qed.

(** ** A circle is kept exactly when its window assigns all three fields *)

Lemma circle_at_complete variables lines i :
  complete_at variables lines i
  = match circle_at variables lines i with Some _ => true | None => false end.
Proof.
  unfold circle_at, complete_at.
  destruct (assigned _ "xa" _), (assigned _ "ya" _), (assigned _ "du" _);
    reflexivity.
Qed.

Lemma omap_circle_length variables lines (l : list nat) :
  length (omap (circle_at variables lines) l)
  = length (List.filter (complete_at variables lines) l).
Proof.
  induction l as [|i l IH]; [reflexivity|].
  cbn [omap list_omap List.filter]. rewrite circle_at_complete.
  destruct (circle_at variables lines i); simpl; now rewrite IH.
Qed.

(** C2, as stated, fails: the only [<102] section of
    [infinite_circle_document] has a [du] that did not parse as a finite
    number, and yet its circle is appended to the result. *)
Lemma findCircles_accepts_infinity :
  let lines := split infinite_circle_document in
  let a k :=
    assigned (circle_assignment (parseVariables lines)) k
      (windowAt circle_break 15 lines 0) in
  ~ ((exists c, In c (findCircles infinite_circle_document))
     <-> (finite_field (a "xa") = true /\ finite_field (a "ya") = true
          /\ finite_field (a "du") = true)).
Proof.
  cbn zeta. intros [H _].
  assert (E : findCircles infinite_circle_document
              = [mkCircle (Decimal false 1 0) (Decimal false 2 0) (Infinity false)])
    by (vm_compute; reflexivity).
  destruct H as (_ & _ & H).
  - rewrite E. eexists. left. reflexivity.
  - vm_compute in H. discriminate.
Qed.

(** C2 (amended): for every document and every [<102] marker in it, a
    circle descriptor is appended to the result if and only if each of
    [xa], [ya] and [du] is assigned, by a line of the window of that marker,
    a value that parses to a number other than [NaN] (an infinity counts
    as a number): the circles of the result are exactly those of the
    complete sections, one for each.  A section that lacks a field is
    dropped and the conversion goes on: whenever line extraction succeeds,
    [POST] answers with the DXF text for whatever circles were found, and a
    document without [<102] marker has the empty sequence of circles. *)
Theorem findCircles_complete_sections (content : string) :
  let lines := split content in
  let variables := parseVariables lines in
  let a i k :=
    assigned (circle_assignment variables) k (windowAt circle_break 15 lines i) in
  (forall c, In c (findCircles content)
     <-> exists i, In i (markers "<102" lines)
           /\ a i "xa" = Some (xa c) /\ a i "ya" = Some (ya c)
           /\ a i "du" = Some (du c))
  /\ length (findCircles content)
     = length (List.filter (complete_at variables lines) (markers "<102" lines))
  /\ (markers "<102" lines = [] -> findCircles content = [])
  /\ (forall ln toString divide, findLine content = Return ln ->
        POST toString divide (Some content)
        = DxfResponse (createDxf toString divide ln (findCircles content))).
Proof.
  cbn zeta. rewrite findCircles_windows. split; [|split; [|split]].
  - intros c. rewrite <- list_elem_of_In, list_elem_of_omap. split.
    + intros (i & Hi & Hc). exists i. rewrite <- list_elem_of_In.
      split; [assumption|]. unfold circle_at in Hc.
      destruct (assigned _ "xa" _), (assigned _ "ya" _), (assigned _ "du" _);
        try discriminate Hc. injection Hc as <-. now repeat split.
    + intros (i & Hi & Hxa & Hya & Hdu). exists i.
      rewrite list_elem_of_In. split; [assumption|].
      unfold circle_at. rewrite Hxa, Hya, Hdu. now destruct c.
  - apply omap_circle_length.
  - now intros ->.
  - intros ln toString divide Hln. unfold POST. rewrite Hln.
    now rewrite findCircles_windows.
Qed.

(** The second of two sections is complete, the first lacks [DU]: one
    circle, and the conversion succeeds. *)
Lemma findCircles_complete_sections_witness :
  let content :=
    js "$E\nX=1\nY=2\nZ=3\n<102\nXA=\q1\q\nYA=\q2\q\n<102\nXA=\q4\q\nYA=\q5\q\nDU=\q6\q" in
  findLine content = Return (mkLine (Decimal false 1 0) (Decimal false 2 0) (Decimal false 3 0))
  /\ findCircles content = [mkCircle (Decimal false 4 0) (Decimal false 5 0) (Decimal false 6 0)]
  /\ exists body, POST (fun _ => "0") (fun n _ => n) (Some content) = DxfResponse body.
Proof.
  cbn zeta. split; [vm_compute; reflexivity|]. split; [vm_compute; reflexivity|].
  eexists.
  apply (proj2 (proj2 (proj2 (findCircles_complete_sections _)))).
  vm_compute. reflexivity.
Defined.

(* ===================================================================== *)
(** * The DXF writer *)
(* ===================================================================== *)

Lemma append_assoc (s1 s2 s3 : string) : (s1 ++ s2) ++ s3 = s1 ++ (s2 ++ s3).
Proof.
  induction s1 as [|c s1 IH]; [reflexivity|].
  change (String c ((s1 ++ s2) ++ s3) = String c (s1 ++ (s2 ++ s3))).
  now rewrite IH.
Qed.

(** Every group of a literal list has an allowed code. *)
Ltac codes_ok :=
  repeat (apply List.Forall_cons;
          [cbn [fst]; unfold group_codes; cbn [In];
           repeat (first [left; reflexivity | right]) |]);
  apply List.Forall_nil.

Section Skeleton.

Variable toString : number -> string.
Variable divide : number -> number -> number.

Lemma emit_all_cons g gs :
  emit_all (g :: gs) = fst g ++ nl ++ snd g ++ nl ++ emit_all gs.
Proof. reflexivity. Qed.

Lemma emit_all_app gs1 gs2 :
  emit_all (gs1 ++ gs2)%list = emit_all gs1 ++ emit_all gs2.
Proof.
  induction gs1 as [|g gs1 IH]; [reflexivity|].
  change (fst g ++ nl ++ snd g ++ nl ++ emit_all (gs1 ++ gs2)%list
          = (fst g ++ nl ++ snd g ++ nl ++ emit_all gs1) ++ emit_all gs2).
  rewrite IH. now rewrite !append_assoc.
Qed.

Lemma join_group_lines gs c v :
  join_lines (group_lines (gs ++ [(c, v)])%list) = emit_all gs ++ c ++ nl ++ v.
Proof.
  induction gs as [|[c' v'] gs IH]; [reflexivity|].
  change (group_lines (((c', v') :: gs) ++ [(c, v)])%list)
    with (c' :: v' :: group_lines (gs ++ [(c, v)])%list).
  change (emit_all ((c', v') :: gs))
    with (c' ++ nl ++ v' ++ nl ++ emit_all gs).
  rewrite !append_assoc. rewrite <- IH.
  destruct (group_lines (gs ++ [(c, v)])%list) as [|l ls] eqn:E.
  - destruct gs; discriminate E.
  - reflexivity.
Qed.

Lemma createDxf_circle_emit dxf c :
  createDxf_circle toString divide dxf c = dxf ++ emit_all (dxf_circle toString divide c).
Proof.
  unfold createDxf_circle. cbn zeta. rewrite !append_assoc. reflexivity.
Qed.

Lemma fold_createDxf_circle circles dxf :
  fold_left (createDxf_circle toString divide) circles dxf
  = dxf ++ emit_all (flat_map (dxf_circle toString divide) circles).
Proof.
  revert dxf; induction circles as [|c circles IH]; intros dxf.
  - simpl. induction dxf as [|a dxf IHd]; [reflexivity|].
    change (String a dxf = String a (dxf ++ EmptyString)). now rewrite <- IHd.
  - cbn [fold_left flat_map]. rewrite IH, createDxf_circle_emit, emit_all_app.
    now rewrite append_assoc.
Qed.

(** C5: for every line descriptor and every sequence of circle
    descriptors, the text [createDxf] returns is exactly the fixed
    skeleton: an empty [HEADER] section, then an [ENTITIES] section with
    one [LINE] on layer 0 from [(0.0, 0.0, line.z)] to
    [(line.x, line.y, line.z)], then one [CIRCLE] for each input circle,
    in input order, on layer 0, centred at [(circle.xa, circle.ya, 0.0)],
    whose radius is [circle.du / 2], then [ENDSEC] and [EOF]; every group
    code is one of 0, 2, 8, 10, 11, 20, 21, 30, 31, 40.  [createDxf] is a
    total function: rendering never fails. *)
Theorem createDxf_skeleton (ln : Line number) (circles : list (Circle number)) :
  createDxf toString divide ln circles
  = join_lines (group_lines (dxf_skeleton toString divide ln circles))
  /\ Forall (fun g => In (fst g) group_codes) (dxf_skeleton toString divide ln circles).
Proof.
  split.
  - unfold dxf_skeleton, dxf_epilogue.
    change [("0", "ENDSEC"); ("0", "EOF")] with ([("0", "ENDSEC")] ++ [("0", "EOF")])%list.
    rewrite !app_assoc. rewrite join_group_lines.
    rewrite <- !app_assoc. rewrite app_assoc. rewrite !emit_all_app.
    unfold createDxf. cbn zeta. rewrite fold_createDxf_circle.
    unfold dxf_prologue, dxf_line. rewrite !emit_all_cons. cbn [fst snd].
    rewrite !append_assoc. reflexivity.
  - unfold dxf_skeleton. rewrite !Forall_app. repeat split.
    + codes_ok.
    + codes_ok.
    + apply Forall_flat_map. apply List.Forall_forall. intros c _. codes_ok.
    + codes_ok.
Qed.

End Skeleton.

(* ===================================================================== *)
(** * Line extraction reads one window *)
(* ===================================================================== *)

Lemma filter_seq_shift (f : nat -> bool) i n :
  List.filter f (seq (S i) n) = map S (List.filter (fun j => f (S j)) (seq i n)).
Proof.
  revert i; induction n as [|n IH]; intros i; [reflexivity|].
  rewrite !filter_seq_step, IH. now destruct (f (S i)).
Qed.

Lemma markers_cons tag l lines :
  markers tag (l :: lines)
  = ((if startsWith (trim l) tag then [0] else []) ++ map S (markers tag lines))%list.
Proof.
  unfold markers. cbn [length]. rewrite filter_seq_step, filter_seq_shift.
  unfold marked at 1. cbn [lookup list_lookup].
  now destruct (startsWith (trim l) tag).
Qed.

(** The window of the first marker, found by walking down the lines. *)
Lemma lineWindow_cons l lines :
  lineWindow (l :: lines)
  = if startsWith (trim l) "$E" then window line_break 10 lines
    else lineWindow lines.
Proof.
  unfold lineWindow. rewrite markers_cons.
  destruct (startsWith (trim l) "$E"); [reflexivity|].
  cbn [app]. now destruct (markers "$E" lines).
Qed.

Lemma lineWindow_first pre m post :
  Forall (fun l => startsWith (trim l) "$E" = false) pre ->
  startsWith (trim m) "$E" = true ->
  lineWindow (pre ++ m :: post) = window line_break 10 post.
Proof.
  intros Hpre Hm. induction Hpre as [|l pre Hl _ IH].
  - cbn [app]. now rewrite lineWindow_cons, Hm.
  - cbn [app]. now rewrite lineWindow_cons, Hl.
Qed.

(** C3, as stated, fails: the two documents have the same first [$E]
    marker and the same window and differ only in the line [Z=<dq>3<dq>],
    a valid key and value pair on the sixth line after the marker,
    behind the blank line that closes the window; that pair decides
    whether [z] is extracted. *)
Lemma pair_outside_window_changes_z :
  take 6 (split (variable_after_window "Q"))
  = take 6 (split (variable_after_window "Z"))
  /\ lineWindow (split (variable_after_window "Q")) = ["X=1"; "Y=2"; "Z=Z"]
  /\ lineWindow (split (variable_after_window "Z")) = ["X=1"; "Y=2"; "Z=Z"]
  /\ throws (findLine (variable_after_window "Q"))
  /\ findLine (variable_after_window "Z")
     = Return (mkLine (Decimal false 1 0) (Decimal false 2 0) (Decimal false 3 0)).
Proof.
  repeat split; try (vm_compute; reflexivity).
  eexists. vm_compute. reflexivity.
Qed.

(** C3 (amended): line extraction reads the coordinates from the first
    [$E] section only, and within it from the window of at most the 10
    lines that follow the marker, which ends before the first blank line
    or line starting with [$E], [[] or [<].  Two documents whose first
    [$E] markers are followed by the same window [w], and whose variable
    tables are equal, give the same [x], [y], [z], the same warnings and the
    same outcome, whatever stands before the marker and after the window:
    a key and value pair outside the window is never read as a coordinate,
    it can matter only as a definition of the variables section. *)
Theorem findLine_reads_first_window_only
    (content content' : string) (pre pre' w rest rest' : list string) (m m' : string) :
  split content = (pre ++ m :: w ++ rest)%list ->
  split content' = (pre' ++ m' :: w ++ rest')%list ->
  Forall (fun l => startsWith (trim l) "$E" = false) pre ->
  Forall (fun l => startsWith (trim l) "$E" = false) pre' ->
  startsWith (trim m) "$E" = true ->
  startsWith (trim m') "$E" = true ->
  Forall (fun l => line_break (trim l) = false) w ->
  length w = 10
  \/ (length w < 10 /\ closes line_break rest /\ closes line_break rest') ->
  parseVariables (split content) = parseVariables (split content') ->
  findLine_scan content
  = over (findLine_body (parseVariables (split content))) (map trim w)
      (mkLine None None None, [])
  /\ findLine_scan content' = findLine_scan content
  /\ findLine content' = findLine content.
Proof.
  intros Hc Hc' Hpre Hpre' Hm Hm' Hw Hend Hvars.
  assert (E : findLine_scan content
    = over (findLine_body (parseVariables (split content))) (map trim w)
        (mkLine None None None, [])).
  { rewrite findLine_scan_window, Hc, lineWindow_first by assumption.
    rewrite window_app; [reflexivity|assumption|].
    destruct Hend as [?|(? & ? & _)]; auto. }
  assert (E' : findLine_scan content' = findLine_scan content).
  { rewrite E, findLine_scan_window, <- Hvars.
    rewrite Hc', lineWindow_first by assumption.
    rewrite window_app; [reflexivity|assumption|].
    destruct Hend as [?|(? & _ & ?)]; auto. }
  repeat split; [exact E|exact E'|].
  unfold findLine. now rewrite E'.
Qed.

Lemma findLine_reads_first_window_only_witness :
  let w := ["X=1"; "Y=2"; "Z=3"; "A=0"; "B=0"; "C=0"; "D=0"; "E=0"; "F=0"; "G=0"] in
  let first := js "$E\nX=1\nY=2\nZ=3\nA=0\nB=0\nC=0\nD=0\nE=0\nF=0\nG=0\nH=0\nI=0" in
  let second := js "X=5\n$E\nX=1\nY=2\nZ=3\nA=0\nB=0\nC=0\nD=0\nE=0\nF=0\nG=0\nH=0\nX=99" in
  findLine second = findLine first
  /\ findLine first
     = Return (mkLine (Decimal false 1 0) (Decimal false 2 0) (Decimal false 3 0)).
Proof.
  cbn zeta. split; [|vm_compute; reflexivity].
  refine (proj2 (proj2 (findLine_reads_first_window_only
    (js "$E\nX=1\nY=2\nZ=3\nA=0\nB=0\nC=0\nD=0\nE=0\nF=0\nG=0\nH=0\nI=0")
    (js "X=5\n$E\nX=1\nY=2\nZ=3\nA=0\nB=0\nC=0\nD=0\nE=0\nF=0\nG=0\nH=0\nX=99")
    [] ["X=5"]
    ["X=1"; "Y=2"; "Z=3"; "A=0"; "B=0"; "C=0"; "D=0"; "E=0"; "F=0"; "G=0"]
    ["H=0"; "I=0"] ["H=0"; "X=99"] "$E" "$E" _ _ _ _ _ _ _ _ _))).
  - vm_compute. reflexivity.
  - vm_compute. reflexivity.
  - constructor.
  - repeat constructor.
  - vm_compute. reflexivity.
  - vm_compute. reflexivity.
  - repeat constructor.
  - left. reflexivity.
  - vm_compute. reflexivity.
Defined.

(* ===================================================================== *)
(** * Values that do not parse, and repeated keys *)
(* ===================================================================== *)

Lemma assigned_from_app assign k w1 w2 init :
  assigned_from assign k (w1 ++ w2)%list init
  = assigned_from assign k w2 (assigned_from assign k w1 init).
Proof. unfold assigned_from. apply fold_left_app. Qed.

Lemma assigned_from_untouched assign k w init :
  Forall (fun c => forall v, assign c <> Some (k, v)) w ->
  assigned_from assign k w init = init.
Proof.
  intros H; revert init; induction H as [|c w Hc _ IH]; intros init; [reflexivity|].
  unfold assigned_from in *. cbn [fold_left]. rewrite IH.
  destruct (assign c) as [[k' n]|] eqn:E; [|reflexivity].
  destruct (String.eqb_spec k' k) as [->|]; [|reflexivity].
  now destruct (Hc n).
Qed.

Lemma over_findLine_field variables k w st :
  In k ["x"; "y"; "z"] ->
  field k (fst (over (findLine_body variables) w st))
  = assigned_from (line_assignment variables) k w (field k (fst st)).
Proof.
  intros Hk. destruct (over_findLine_fields variables w st) as (Hx & Hy & Hz).
  cbn zeta in *. unfold field.
  destruct Hk as [<-|[<-|[<-|[]]]]; cbn [String.eqb Ascii.eqb Bool.eqb]; assumption.
Qed.

Lemma assigned_from_skip assign k earlier c later init :
  assign c = None ->
  assigned_from assign k (earlier ++ c :: later)%list init
  = assigned_from assign k (earlier ++ later)%list init.
Proof.
  intros Hc. rewrite !assigned_from_app.
  unfold assigned_from. cbn [fold_left]. now rewrite Hc.
Qed.

Lemma field_initial k : field k (mkLine None None None) = None.
Proof. unfold field. now repeat destruct (String.eqb _ _). Qed.

(** The warnings of a scan are those of the lines of its window, in the
    order of the lines. *)
Lemma over_findLine_warnings variables w st :
  snd (over (findLine_body variables) w st)
  = (snd st ++ omap (line_warning variables) w)%list.
Proof.
  revert st; induction w as [|c w IH]; intros [p ws].
  - simpl. now rewrite app_nil_r.
  - unfold over in *. cbn [fold_left]. rewrite IH. cbn [omap list_omap].
    unfold findLine_body, line_warning, lineValue.
    destruct (lineKeyValueMatch c) as [[g1 g2]|]; [|reflexivity]. cbn zeta.
    destruct (isNaN _); [cbn [snd]; now rewrite <- app_assoc|].
    now repeat destruct (String.eqb _ _).
Qed.

(** The fields and the warnings [findLine] ends its scan with, read off
    the window of the first [$E] marker. *)
Lemma findLine_scan_result content k :
  In k ["x"; "y"; "z"] ->
  field k (fst (findLine_scan content))
  = assigned (line_assignment (parseVariables (split content))) k
      (lineWindow (split content))
  /\ snd (findLine_scan content)
     = omap (line_warning (parseVariables (split content)))
         (lineWindow (split content)).
Proof.
  intros Hk. rewrite findLine_scan_window. split.
  - rewrite over_findLine_field by assumption. cbn [fst].
    now rewrite field_initial.
  - now rewrite over_findLine_warnings.
Qed.




(* ===================================================================== *)
(** * The variable table *)
(* ===================================================================== *)

Lemma parseVariables_loop_section sec rest variables :
  Forall (fun l => in_section l = true) sec ->
  ends_section rest ->
  parseVariables_loop (sec ++ rest) true variables
  = fold_left assign_variable sec variables.
Proof.
  intros Hsec Hrest; revert variables.
  induction Hsec as [|l sec Hl _ IH]; intros variables.
  - destruct rest as [|l rest]; [reflexivity|].
    destruct Hrest as [Hh Hb]. unfold is_header in Hh.
    cbn [app parseVariables_loop fold_left]. cbn zeta. now rewrite Hh, Hb.
  - cbn [app parseVariables_loop fold_left]. cbn zeta.
    unfold in_section, is_header in Hl.
    unfold assign_variable at 2. unfold var_assignment, is_header.
    destruct (startsWith (trim l) "[001"); [apply IH|].
    simpl in Hl. apply negb_true_iff in Hl. rewrite Hl.
    destruct (varMatch (trim l)) as [[n v]|]; apply IH.
Qed.

Lemma parseVariables_loop_before pre h tl variables :
  Forall (fun l => is_header l = false) pre ->
  is_header h = true ->
  parseVariables_loop (pre ++ h :: tl) false variables
  = parseVariables_loop tl true variables.
Proof.
  intros Hpre Hh. unfold is_header in *.
  induction Hpre as [|l pre Hl _ IH]; cbn [app parseVariables_loop]; cbn zeta.
  - now rewrite Hh.
  - now rewrite Hl.
Qed.

(** The table is built from the lines of the first section, one after the
    other. *)
Lemma parseVariables_section pre h sec rest :
  Forall (fun l => is_header l = false) pre ->
  is_header h = true ->
  Forall (fun l => in_section l = true) sec ->
  ends_section rest ->
  parseVariables (pre ++ h :: sec ++ rest) = fold_left assign_variable sec ∅.
Proof.
  intros Hpre Hh Hsec Hrest. unfold parseVariables.
  rewrite parseVariables_loop_before by assumption.
  now apply parseVariables_loop_section.
Qed.

(** Without a header the loop never enters the section. *)
Lemma parseVariables_no_header lines :
  Forall (fun l => is_header l = false) lines ->
  parseVariables lines = ∅.
Proof.
  unfold parseVariables, is_header. generalize (∅ : gmap string string).
  induction 1 as [|l lines Hl _ IH]; [reflexivity|].
  cbn [parseVariables_loop]. cbn zeta. now rewrite Hl.
Qed.

Lemma set_lookup_ne k v k' (variables : gmap string string) :
  k <> k' -> set k v variables !! k' = variables !! k'.
Proof.
  intros Hne. unfold set. destruct (String.eqb k "__proto__"); [reflexivity|].
  now apply lookup_insert_ne.
Qed.

Lemma set_lookup_eq k v (variables : gmap string string) :
  k <> "__proto__" -> set k v variables !! k = Some v.
Proof.
  intros Hne. unfold set. apply String.eqb_neq in Hne. rewrite Hne.
  apply lookup_insert_eq.
Qed.

Lemma fold_assign_untouched name sec (variables : gmap string string) :
  Forall (fun l => forall v, var_assignment l <> Some (name, v)) sec ->
  fold_left assign_variable sec variables !! name = variables !! name.
Proof.
  intros H; revert variables; induction H as [|l sec Hl _ IH]; intros variables;
    [reflexivity|].
  cbn [fold_left]. rewrite IH. unfold assign_variable.
  destruct (var_assignment l) as [[n v]|] eqn:E; [|reflexivity].
  apply set_lookup_ne. intros ->. now destruct (Hl v).
Qed.

(** Last write wins, for every name but [__proto__]. *)
Lemma parseVariables_last_write_wins pre h earlier l later rest name v :
  Forall (fun l => is_header l = false) pre ->
  is_header h = true ->
  Forall (fun l => in_section l = true) (earlier ++ l :: later) ->
  ends_section rest ->
  var_assignment l = Some (name, v) ->
  Forall (fun l' => forall v', var_assignment l' <> Some (name, v')) later ->
  name <> "__proto__" ->
  parseVariables (pre ++ h :: (earlier ++ l :: later) ++ rest) !! name = Some v.
Proof.
  intros Hpre Hh Hsec Hrest Hl Hlater Hname.
  rewrite parseVariables_section by assumption.
  rewrite fold_left_app. cbn [fold_left].
  rewrite fold_assign_untouched by assumption.
  unfold assign_variable at 1. rewrite Hl. now apply set_lookup_eq.
Qed.

(** ** The defects of a plain object used as a table *)

Lemma substitute_own (variables : gmap string string) token v :
  variables !! token = Some v -> substitute variables token = Str v.
Proof. intros H. unfold substitute, get. now rewrite H. Qed.

Lemma substitute_fresh (variables : gmap string string) token :
  variables !! token = None -> ~ In token object_prototype ->
  substitute variables token = Str token.
Proof.
  intros H Hn. unfold substitute, get. rewrite H.
  rewrite bool_decide_eq_false_2; [reflexivity|].
  now rewrite list_elem_of_In.
Qed.

(** The end-to-end example of the specification: a line to [(10, 20, 5)]
    and a circle whose diameter is the variable [SCALE]. *)
Example end_to_end_example :
  let content :=
    js "[001]\nSCALE=\q2.0\q\n\n$E\nX=10\nY=20\nZ=5\n<102>\nXA=\q100\q\nYA=\q200\q\nDU=\qSCALE\q\n" in
  findLine content
  = Return (mkLine (Decimal false 10 0) (Decimal false 20 0) (Decimal false 5 0))
  /\ findCircles content
     = [mkCircle (Decimal false 100 0) (Decimal false 200 0) (Decimal false 20 (-1))].
Proof. split; vm_compute; reflexivity. Qed.

(** The example of the specification: [FOO] is defined as [12.5] and the
    [$E] section has [X=FOO]. *)
Example substitution_example :
  x (fst (findLine_scan (js "[001\nFOO=\q12.5\q\n\n$E\nX=FOO\nY=1\nZ=2")))
  = Some (Decimal false 125 (-1)).
Proof. vm_compute. reflexivity. Qed.

(** C6 (defect of the code): the token [constructor] matches no key of
    the empty table, and yet the substitution does not return it unchanged:
    reading [variables[value]] finds the function that [Object.prototype]
    holds under that name, which is not [undefined], and [value] becomes
    that function.  The field is then skipped and the warning carries the
    function instead of the token. *)
Theorem substitute_inherited_property :
  (∅ : gmap string string) !! "constructor" = None
  /\ substitute ∅ "constructor" = Inherited "constructor"
  /\ substitute ∅ "constructor" <> Str "constructor"
  /\ findLine_scan (js "$E\nX=constructor")
     = (mkLine None None None, [Warn "X" (Inherited "constructor")]).
Proof. repeat split; try (vm_compute; reflexivity). discriminate. Qed.

(** C8 (defect of the code): a variables section that assigns the name
    [__proto__] twice.  Both assignments are swallowed by the setter of
    [Object.prototype.__proto__]: the table has no such key afterwards, and
    a reference to the name reads the prototype object instead of the last
    value.  With any other name the same document converts. *)
Theorem parseVariables_loses_proto :
  let lines := split (js "[001\n__proto__=\q1\q\n__proto__=\q2\q") in
  var_assignment (js "__proto__=\q2\q") = Some ("__proto__", "2")
  /\ parseVariables lines !! "__proto__" = None
  /\ get (parseVariables lines) "__proto__" = Some (Inherited "__proto__")
  /\ throws (findLine (js "[001\n__proto__=\q1\q\n__proto__=\q2\q\n\n$E\nX=__proto__\nY=1\nZ=1"))
  /\ findLine (js "[001\nP=\q1\q\nP=\q2\q\n\n$E\nX=P\nY=1\nZ=1")
     = Return (mkLine (Decimal false 2 0) (Decimal false 1 0) (Decimal false 1 0)).
Proof.
  cbn zeta. repeat split; try (vm_compute; reflexivity).
  eexists. vm_compute. reflexivity.
Qed.

(** ** Where the variables section ends *)

Lemma parseVariables_loop_prefix sec tl variables :
  Forall (fun l => in_section l = true) sec ->
  parseVariables_loop (sec ++ tl) true variables
  = parseVariables_loop tl true (fold_left assign_variable sec variables).
Proof.
  intros Hsec; revert variables.
  induction Hsec as [|l sec Hl _ IH]; intros variables; [reflexivity|].
  cbn [app parseVariables_loop fold_left]. cbn zeta.
  unfold in_section, is_header in Hl.
  unfold assign_variable at 2. unfold var_assignment, is_header.
  destruct (startsWith (trim l) "[001"); [apply IH|].
  simpl in Hl. apply negb_true_iff in Hl. rewrite Hl.
  destruct (varMatch (trim l)) as [[n v]|]; apply IH.
Qed.

(** C10, as stated, fails: the third line of [second_header_document]
    begins with [[] and is a second [[001] header, but it does not
    terminate the scan: the assignment to [B] in the section it opens
    contributes to the table. *)
Lemma second_header_does_not_terminate :
  split second_header_document !! 2 = Some "[001"
  /\ startsWith "[001" "[" = true
  /\ parseVariables (split second_header_document) !! "B" = Some "2"
  /\ parseVariables (split (js "[001\nA=\q1\q")) !! "B" = None.
Proof. repeat split; vm_compute; reflexivity. Qed.

(** C10 (amended): once inside the first [[001] section, a line that
    begins with [[] and is not itself a [[001] header terminates the scan
    entirely: whatever follows it, a later [[001] section included, never
    contributes to the table.  A line that begins with [[001] does not
    terminate the scan: it is skipped, and the scan goes on with the lines
    after it as part of the same section. *)
Theorem parseVariables_first_section (pre sec : list string) (h l : string) :
  Forall (fun l => is_header l = false) pre ->
  is_header h = true ->
  Forall (fun l => in_section l = true) sec ->
  (startsWith (trim l) "[" = true -> is_header l = false ->
   forall rest,
     parseVariables (pre ++ h :: sec ++ l :: rest) = parseVariables (pre ++ h :: sec))
  /\ (is_header l = true ->
      forall rest,
        parseVariables (pre ++ h :: sec ++ l :: rest)
        = parseVariables (pre ++ h :: sec ++ rest)).
Proof.
  intros Hpre Hh Hsec. split.
  - intros Hbracket Hl rest.
    rewrite (parseVariables_section pre h sec (l :: rest)); try assumption.
    + rewrite <- (app_nil_r sec) at 2.
      now rewrite (parseVariables_section pre h sec []).
    + split; [assumption|]. unfold variables_break. now rewrite Hbracket.
  - intros Hl rest. unfold parseVariables.
    rewrite !parseVariables_loop_before by assumption.
    rewrite !parseVariables_loop_prefix by assumption.
    cbn [parseVariables_loop]. cbn zeta. unfold is_header in Hl. now rewrite Hl.
Qed.

(** A section ended by [[002]: the later [[001] section is not read.  A
    section continued by a second [[001] header: the header is skipped. *)
Lemma parseVariables_first_section_witness :
  parseVariables ["x"; "[001"; js "A=\q1\q"; "[002"; "[001"; js "B=\q2\q"]
  = parseVariables ["x"; "[001"; js "A=\q1\q"]
  /\ parseVariables ["x"; "[001"; js "A=\q1\q"; "[001"; js "B=\q2\q"]
     = parseVariables ["x"; "[001"; js "A=\q1\q"; js "B=\q2\q"].
Proof.
  split.
  - apply (proj1 (parseVariables_first_section ["x"] [js "A=\q1\q"] "[001" "[002"
                    ltac:(repeat constructor) eq_refl ltac:(repeat constructor))
             eq_refl eq_refl [ "[001"; js "B=\q2\q" ]).
  - apply (proj2 (parseVariables_first_section ["x"] [js "A=\q1\q"] "[001" "[001"
                    ltac:(repeat constructor) eq_refl ltac:(repeat constructor))
             eq_refl [ js "B=\q2\q" ]).
Defined.

(* ===================================================================== *)
(** * Quotes are removed before the variable is looked up *)
(* ===================================================================== *)

Lemma append_nil_r (s : string) : s ++ EmptyString = s.
Proof.
  induction s as [|c s IH]; [reflexivity|].
  change (String c (s ++ EmptyString) = String c s). now rewrite IH.
Qed.

(** A greedy quantifier whose longest match lets the rest succeed. *)
Lemma many_longest {A} p m r (k : string -> string -> option A) a :
  all_chars p m = true -> stops p r -> k m r = Some a ->
  many p (m ++ r) k = Some a.
Proof.
  revert k; induction m as [|c m IH]; intros k Hm Hr Hk.
  - change (EmptyString ++ r) with r.
    destruct r as [|c r]; [exact Hk|]. simpl in Hr |- *. now rewrite Hr.
  - simpl in Hm. apply andb_true_iff in Hm as [Hc Hm].
    change (String c m ++ r) with (String c (m ++ r)).
    cbn [many]. rewrite Hc.
    now rewrite (IH (fun m0 r0 => k (String c m0) r0) Hm Hr Hk).
Qed.

(** A greedy quantifier in front of a character of another class. *)
Lemma many_stops {A} p c s (k : string -> string -> option A) :
  p c = false -> many p (String c s) k = k EmptyString (String c s).
Proof. intros H. cbn [many]. now rewrite H. Qed.

(** A greedy quantifier that has to give back its last character. *)
Lemma many_gives_back {A} p m c (k : string -> string -> option A) a :
  all_chars p m = true -> p c = true ->
  k (m ++ String c EmptyString) EmptyString = None ->
  k m (String c EmptyString) = Some a ->
  many p (m ++ String c EmptyString) k = Some a.
Proof.
  revert k; induction m as [|c0 m IH]; intros k Hm Hc Hlong Hk.
  - change (EmptyString ++ String c EmptyString) with (String c EmptyString) in *.
    cbn [many]. rewrite Hc. now rewrite Hlong.
  - simpl in Hm. apply andb_true_iff in Hm as [Hc0 Hm].
    change (String c0 m ++ String c EmptyString)
      with (String c0 (m ++ String c EmptyString)) in *.
    cbn [many]. rewrite Hc0.
    now rewrite (IH (fun m0 r0 => k (String c0 m0) r0) Hm Hc Hlong Hk).
Qed.

Lemma all_chars_impl (p q : ascii -> bool) s :
  (forall c, p c = true -> q c = true) ->
  all_chars p s = true -> all_chars q s = true.
Proof.
  intros Hpq. induction s as [|c s IH]; [reflexivity|]. simpl.
  intros [Hc Hs]%andb_true_iff. now rewrite (Hpq c Hc), IH.
Qed.

Lemma all_chars_app p s1 s2 :
  all_chars p (s1 ++ s2) = all_chars p s1 && all_chars p s2.
Proof.
  induction s1 as [|c s1 IH]; [reflexivity|].
  change (String c s1 ++ s2) with (String c (s1 ++ s2)). simpl.
  now rewrite IH, andb_assoc.
Qed.

(** Facts on the character classes, by enumeration of the 256 characters. *)
Lemma word_not_space c : is_word c = true -> is_space c = false.
Proof.
  destruct c as [[] [] [] [] [] [] [] []]; vm_compute; congruence.
Qed.

Lemma word_is_dot c : is_word c = true -> is_dot c = true.
Proof.
  destruct c as [[] [] [] [] [] [] [] []]; vm_compute; congruence.
Qed.

Lemma word_not_dquote c : is_word c = true -> is_dquote c = false.
Proof.
  destruct c as [[] [] [] [] [] [] [] []]; vm_compute; congruence.
Qed.

Lemma trim_id s : all_chars not_space s = true -> trim s = s.
Proof.
  intros H. unfold trim.
  assert (Hs : trimStart s = s).
  { destruct s as [|c s]; [reflexivity|]. simpl in H |- *.
    apply andb_true_iff in H as [Hc _]. unfold not_space in Hc.
    apply negb_true_iff in Hc. now rewrite Hc. }
  rewrite Hs. clear Hs.
  induction s as [|c s IH]; [reflexivity|].
  simpl in H. apply andb_true_iff in H as [Hc Hs]. cbn [trimEnd].
  rewrite (IH Hs). unfold not_space in Hc. apply negb_true_iff in Hc.
  rewrite Hc. now destruct s.
Qed.

(** A key, an equals sign and a value without white space in front. *)
Lemma lineKeyValueMatch_pair key c v :
  key <> EmptyString -> all_chars is_word key = true ->
  is_space c = false -> all_chars is_dot (String c v) = true ->
  lineKeyValueMatch (key ++ String "="%char (String c v)) = Some (key, String c v).
Proof.
  intros Hkey Hword Hc Hdot. unfold lineKeyValueMatch, many1.
  apply many_longest; [assumption|reflexivity|].
  destruct key as [|k0 key]; [contradiction|].
  rewrite many_stops by reflexivity. cbn [lit].
  change (is_eq_sign "="%char) with true. cbn iota.
  rewrite many_stops by exact Hc.
  rewrite <- (append_nil_r (String c v)) at 1.
  apply many_longest; [assumption|exact I|reflexivity].
Qed.

Lemma removeQuotes_plain c v :
  is_dquote c = false -> removeQuotes (String c v) = String c v.
Proof. intros H. unfold removeQuotes, lit. now rewrite H. Qed.

Lemma removeQuotes_quoted s :
  s <> EmptyString -> all_chars is_dot s = true -> removeQuotes (quoted s) = s.
Proof.
  intros Hs Hdot. unfold removeQuotes, quoted. cbn [lit].
  change (is_dquote dquote) with true. cbn iota. unfold many1.
  rewrite (many_gives_back is_dot s dquote _ s); try reflexivity; try assumption.
  - now destruct (s ++ String dquote EmptyString).
  - destruct s; [contradiction|reflexivity].
Qed.

(** The body of the inner loop, with the key comparisons folded into
    [with_field]. *)
Lemma findLine_body_matched variables c g1 g2 params ws :
  lineKeyValueMatch c = Some (g1, g2) ->
  findLine_body variables c (params, ws)
  = if isNaN (parseFloat_value (lineValue variables g2))
    then (params,
          (ws ++ [Warn (toUpperCase (toLowerCase g1)) (lineValue variables g2)])%list)
    else (with_field (toLowerCase g1) (parseFloat_value (lineValue variables g2)) params,
          ws).
Proof.
  intros Hm. unfold findLine_body, with_field, lineValue. rewrite Hm. cbn zeta.
  destruct (isNaN _); [reflexivity|].
  now repeat destruct (String.eqb _ _).
Qed.

(** A line [KEY=<dq>NAME<dq>] or [KEY=NAME]: what the expression captures,
    and the text that is looked up in the table. *)
Lemma reference_line key name c :
  key <> EmptyString -> all_chars is_word key = true ->
  name <> EmptyString -> all_chars is_word name = true ->
  c = key ++ String "="%char (quoted name) \/ c = key ++ String "="%char name ->
  exists g2, lineKeyValueMatch c = Some (key, g2)
             /\ removeQuotes (trim g2) = name.
Proof.
  intros Hkey Hkw Hname Hnw Hc.
  assert (Hdot : all_chars is_dot name = true)
    by (eapply all_chars_impl; [apply word_is_dot|assumption]).
  assert (Hsp : all_chars not_space name = true).
  { eapply all_chars_impl; [|exact Hnw]. intros ch Hch. unfold not_space.
    now rewrite word_not_space. }
  destruct Hc as [-> | ->].
  - exists (quoted name). split.
    + unfold quoted. apply lineKeyValueMatch_pair; try assumption; [reflexivity|].
      change (all_chars is_dot (String dquote (name ++ String dquote EmptyString)))
        with (is_dot dquote && all_chars is_dot (name ++ String dquote EmptyString)).
      rewrite all_chars_app, Hdot. reflexivity.
    + rewrite trim_id.
      * now apply removeQuotes_quoted.
      * unfold quoted.
        change (all_chars not_space (String dquote (name ++ String dquote EmptyString)))
          with (not_space dquote
                && all_chars not_space (name ++ String dquote EmptyString)).
        rewrite all_chars_app, Hsp. reflexivity.
  - exists name. destruct name as [|ch name]; [contradiction|].
    simpl in Hnw. apply andb_true_iff in Hnw as [Hch _]. split.
    + apply lineKeyValueMatch_pair; try assumption. now apply word_not_space.
    + rewrite trim_id by assumption.
      now rewrite removeQuotes_plain by (now apply word_not_dquote).
Qed.

(** C9: let the window that [findLine] reads consist of the lines
    [earlier], then [c], then [later], where [c] is a reference to a
    variable, [KEY=<dq>NAME<dq>] or [KEY=NAME] with a key and a name made
    of word characters, and let the table built from the document map
    [NAME] to [v].  The quotes are removed before the table is consulted:
    with or without quotes it is [NAME] that is looked up.  And the
    substitution is applied once: the text that is parsed is [v] itself,
    whether or not [v] is in turn a key of the table.  So the loop body
    stores the number [v] parses to under the key, or, when [v] does not
    parse, stores nothing and warns with the text [v]; at the end of the
    scan of [findLine] the field of the key holds the number of [v] unless
    a later line assigns it, and when [v] does not parse the fields are
    those of the window without [c] and the warning with [v] stands
    between those of the earlier and of the later lines. *)
Theorem quoted_reference_resolves
    (content : string) (earlier later : list string) (key name v c : string) :
  let variables := parseVariables (split content) in
  key <> EmptyString -> all_chars is_word key = true ->
  name <> EmptyString -> all_chars is_word name = true ->
  c = key ++ String "="%char (quoted name) \/ c = key ++ String "="%char name ->
  lineWindow (split content) = (earlier ++ c :: later)%list ->
  variables !! name = Some v ->
  (forall params ws,
      findLine_body variables c (params, ws)
      = if isNaN (parseFloat v)
        then (params, (ws ++ [Warn (toUpperCase (toLowerCase key)) (Str v)])%list)
        else (with_field (toLowerCase key) (parseFloat v) params, ws))
  /\ (isNaN (parseFloat v) = true ->
      snd (findLine_scan content)
      = (omap (line_warning variables) earlier
         ++ Warn (toUpperCase (toLowerCase key)) (Str v)
            :: omap (line_warning variables) later)%list
      /\ forall k, In k ["x"; "y"; "z"] ->
           field k (fst (findLine_scan content))
           = assigned (line_assignment variables) k (earlier ++ later)%list)
  /\ (isNaN (parseFloat v) = false ->
      In (toLowerCase key) ["x"; "y"; "z"] ->
      Forall (fun c' => forall v',
                line_assignment variables c' <> Some (toLowerCase key, v')) later ->
      field (toLowerCase key) (fst (findLine_scan content)) = Some (parseFloat v)).
Proof.
  cbn zeta. intros Hkey Hkw Hname Hnw Hc Hw Hv.
  destruct (reference_line key name c Hkey Hkw Hname Hnw Hc) as (g2 & Hm & Hg2).
  assert (Hl : lineValue (parseVariables (split content)) g2 = Str v).
  { unfold lineValue. rewrite Hg2. now apply substitute_own. }
  split; [|split].
  - intros params ws. rewrite (findLine_body_matched _ c key g2) by assumption.
    now rewrite Hl.
  - intros Hnan.
    assert (Ha : line_assignment (parseVariables (split content)) c = None).
    { unfold line_assignment, assignment_of. rewrite Hm. cbn zeta. rewrite Hl.
      simpl. now rewrite Hnan. }
    assert (Hwn : line_warning (parseVariables (split content)) c
                  = Some (Warn (toUpperCase (toLowerCase key)) (Str v))).
    { unfold line_warning. rewrite Hm, Hl. simpl. now rewrite Hnan. }
    split.
    + destruct (findLine_scan_result content "x") as [_ ->]; [now left|].
      rewrite Hw, omap_app. cbn [omap list_omap]. now rewrite Hwn.
    + intros k Hk. destruct (findLine_scan_result content k Hk) as [-> _].
      rewrite Hw. unfold assigned. now apply assigned_from_skip.
  - intros Hnum Hk Hlater.
    assert (Ha : line_assignment (parseVariables (split content)) c
                 = Some (toLowerCase key, parseFloat v)).
    { unfold line_assignment, assignment_of. rewrite Hm. cbn zeta. rewrite Hl.
      simpl. now rewrite Hnum. }
    destruct (findLine_scan_result content _ Hk) as [-> _].
    rewrite Hw. unfold assigned. rewrite assigned_from_app.
    change (c :: later) with ([c] ++ later)%list.
    rewrite assigned_from_app, assigned_from_untouched by assumption.
    unfold assigned_from. cbn [fold_left]. rewrite Ha.
    now rewrite String.eqb_refl.
Qed.

(** [FOO] stands for [BAR] and [BAR] for [7]: the quoted reference to
    [FOO] gives the text [BAR], which is not looked up again, so [x] stays
    unset and the warning shows [BAR].  [N] stands for [12.5]: the quoted
    reference to [N] sets [y]. *)
Lemma quoted_reference_resolves_witness :
  let content :=
    js "[001\nFOO=\qBAR\q\nBAR=\q7\q\nN=\q12.5\q\n\n$E\nX=\qFOO\q\nY=\qN\q\nZ=1" in
  snd (findLine_scan content) = [Warn "X" (Str "BAR")]
  /\ field "x" (fst (findLine_scan content)) = None
  /\ field "y" (fst (findLine_scan content)) = Some (Decimal false 125 (-1)).
Proof.
  cbn zeta.
  destruct (quoted_reference_resolves
              (js "[001\nFOO=\qBAR\q\nBAR=\q7\q\nN=\q12.5\q\n\n$E\nX=\qFOO\q\nY=\qN\q\nZ=1")
              [] [js "Y=\qN\q"; "Z=1"] "X" "FOO" "BAR" (js "X=\qFOO\q"))
    as (_ & Hnan & _);
    [discriminate | reflexivity | discriminate | reflexivity
     | left; vm_compute; reflexivity | vm_compute; reflexivity
     | vm_compute; reflexivity |].
  destruct (Hnan eq_refl) as [Hwarn Hfield].
  destruct (quoted_reference_resolves
              (js "[001\nFOO=\qBAR\q\nBAR=\q7\q\nN=\q12.5\q\n\n$E\nX=\qFOO\q\nY=\qN\q\nZ=1")
              [js "X=\qFOO\q"] ["Z=1"] "Y" "N" "12.5" (js "Y=\qN\q"))
    as (_ & _ & Hnum);
    [discriminate | reflexivity | discriminate | reflexivity
     | left; vm_compute; reflexivity | vm_compute; reflexivity
     | vm_compute; reflexivity |].
  split; [|split].
  - rewrite Hwarn. vm_compute. reflexivity.
  - rewrite (Hfield "x") by (now left). vm_compute. reflexivity.
  - apply (Hnum eq_refl).
    + right. left. reflexivity.
    + apply List.Forall_cons; [intros v'; vm_compute; discriminate|apply List.Forall_nil].
Defined.


(* ===================================================================== *)
(** * What a match of the regular expressions tells *)
(* ===================================================================== *)

(** A greedy quantifier only ever hands a run of its own class to what
    follows it. *)
Lemma many_sound {A} p s (k : string -> string -> option A) a :
  many p s k = Some a ->
  exists m r, s = m ++ r /\ all_chars p m = true /\ k m r = Some a.
Proof.
  revert k; induction s as [|c s IH]; intros k H.
  - exists EmptyString, EmptyString. now repeat split.
  - cbn [many] in H. destruct (p c) eqn:Hc.
    + destruct (many p s (fun m r => k (String c m) r)) as [a'|] eqn:E.
      * injection H as ->. apply IH in E as (m & r & -> & Hm & Hk).
        exists (String c m), r. repeat split; [|exact Hk].
        simpl. now rewrite Hc, Hm.
      * exists EmptyString, (String c s). now repeat split.
    + exists EmptyString, (String c s). now repeat split.
Qed.

Lemma many1_sound {A} p s (k : string -> string -> option A) a :
  many1 p s k = Some a ->
  exists m r, s = m ++ r /\ m <> EmptyString /\ all_chars p m = true
              /\ k m r = Some a.
Proof.
  unfold many1. intros H. apply many_sound in H as (m & r & -> & Hm & Hk).
  exists m, r. destruct m; [discriminate Hk|]. now repeat split.
Qed.

Lemma lit_sound {A} p s (k : string -> option A) a :
  lit p s k = Some a ->
  exists c s', s = String c s' /\ p c = true /\ k s' = Some a.
Proof.
  destruct s as [|c s]; [discriminate|]. cbn [lit].
  destruct (p c) eqn:Hc; [|discriminate]. intros H. now exists c, s.
Qed.

Lemma search_sound {A} (re : string -> option A) s a :
  search re s = Some a -> exists pre suf, s = pre ++ suf /\ re suf = Some a.
Proof.
  induction s as [|c s IH]; cbn [search].
  - destruct (re EmptyString) eqn:E; [|discriminate].
    intros [= ->]. now exists EmptyString, EmptyString.
  - destruct (re (String c s)) eqn:E.
    + intros [= ->]. now exists EmptyString, (String c s).
    + intros H. apply IH in H as (pre & suf & -> & H).
      now exists (String c pre), suf.
Qed.

Lemma eq_sign_char c : is_eq_sign c = true -> c = "="%char.
Proof.
  destruct c as [[] [] [] [] [] [] [] []]; vm_compute; congruence.
Qed.

Lemma dquote_char c : is_dquote c = true -> c = dquote.
Proof.
  destruct c as [[] [] [] [] [] [] [] []]; vm_compute; congruence.
Qed.

(** The shape of a text the quoted assignment matches at its start. *)
Lemma assignment_sound s g1 g2 :
  assignment s = Some (g1, g2) ->
  exists ws1 ws2 post,
    s = g1 ++ ws1 ++ String "="%char (ws2 ++ quoted g2 ++ post)
    /\ g1 <> EmptyString /\ all_chars is_word g1 = true
    /\ all_chars is_space ws1 = true /\ all_chars is_space ws2 = true
    /\ g2 <> EmptyString /\ all_chars not_dquote g2 = true.
Proof.
  unfold assignment. intros H.
  apply many1_sound in H as (n & r1 & -> & Hn & Hnw & H).
  apply many_sound in H as (ws1 & r2 & -> & Hws1 & H).
  apply lit_sound in H as (c & r3 & -> & Hc & H).
  apply eq_sign_char in Hc as ->.
  apply many_sound in H as (ws2 & r4 & -> & Hws2 & H).
  apply lit_sound in H as (q & r5 & -> & Hq & H).
  apply dquote_char in Hq as ->.
  apply many1_sound in H as (v & r6 & -> & Hv & Hvq & H).
  apply lit_sound in H as (q' & post & -> & Hq' & H).
  apply dquote_char in Hq' as ->. injection H as <- <-.
  exists ws1, ws2, post. repeat split; try assumption.
  unfold quoted.
  change (String dquote (v ++ String dquote EmptyString) ++ post)
    with (String dquote ((v ++ String dquote EmptyString) ++ post)).
  rewrite (append_assoc v). reflexivity.
Qed.

(** The shape of a line the key and value expression of [findLine]
    matches. *)
Lemma lineKeyValueMatch_sound c g1 g2 :
  lineKeyValueMatch c = Some (g1, g2) ->
  exists ws1 ws2,
    c = g1 ++ ws1 ++ String "="%char (ws2 ++ g2)
    /\ g1 <> EmptyString /\ all_chars is_word g1 = true
    /\ all_chars is_space ws1 = true /\ all_chars is_space ws2 = true
    /\ g2 <> EmptyString /\ all_chars is_dot g2 = true.
Proof.
  unfold lineKeyValueMatch. intros H.
  apply many1_sound in H as (n & r1 & -> & Hn & Hnw & H).
  apply many_sound in H as (ws1 & r2 & -> & Hws1 & H).
  apply lit_sound in H as (e & r3 & -> & He & H).
  apply eq_sign_char in He as ->.
  apply many_sound in H as (ws2 & r4 & -> & Hws2 & H).
  apply many1_sound in H as (v & r5 & -> & Hv & Hvd & H).
  destruct r5; [|discriminate H]. injection H as <- <-.
  exists ws1, ws2. rewrite append_nil_r. now repeat split.
Qed.

(* ===================================================================== *)
(** * Further properties of the scans *)
(* ===================================================================== *)

(** The numbers [findLine] returns are never [NaN]: the validation is the
    last of two guards, and the loop body never stores a [NaN]. *)
Theorem findLine_returns_numbers (content : string) (ln : Line number) :
  findLine content = Return ln ->
  isNaN (x ln) = false /\ isNaN (y ln) = false /\ isNaN (z ln) = false.
Proof.
  rewrite findLine_assigned. cbn zeta.
  pose proof (line_assigned_set (parseVariables (split content)) "x"
                (lineWindow (split content))) as Hx.
  pose proof (line_assigned_set (parseVariables (split content)) "y"
                (lineWindow (split content))) as Hy.
  pose proof (line_assigned_set (parseVariables (split content)) "z"
                (lineWindow (split content))) as Hz.
  destruct (assigned _ "x" _), (assigned _ "y" _), (assigned _ "z" _);
    try discriminate. intros [= <-]. simpl in *. auto.
Qed.

Lemma findLine_returns_numbers_witness :
  isNaN (Infinity false) = false /\ isNaN (Decimal false 1 0) = false
  /\ isNaN (Decimal true 25 (-1)) = false.
Proof.
  apply (findLine_returns_numbers (js "$E\nX=Infinity\nY=1\nZ=-2.5")
           (mkLine (Infinity false) (Decimal false 1 0) (Decimal true 25 (-1)))).
  vm_compute. reflexivity.
Defined.

(** No circle of the result has a [NaN] among its fields. *)
Theorem findCircles_returns_numbers (content : string) :
  Forall (fun c => isNaN (xa c) = false /\ isNaN (ya c) = false
                   /\ isNaN (du c) = false)
    (findCircles content).
Proof.
  rewrite findCircles_windows. apply List.Forall_forall. intros c Hc.
  apply list_elem_of_In, list_elem_of_omap in Hc as (i & _ & Hc).
  unfold circle_at in Hc.
  pose proof (circle_assigned_set (parseVariables (split content)) "xa"
                (windowAt circle_break 15 (split content) i)) as Hx.
  pose proof (circle_assigned_set (parseVariables (split content)) "ya"
                (windowAt circle_break 15 (split content) i)) as Hy.
  pose proof (circle_assigned_set (parseVariables (split content)) "du"
                (windowAt circle_break 15 (split content) i)) as Hz.
  destruct (assigned _ "xa" _), (assigned _ "ya" _), (assigned _ "du" _);
    try discriminate. injection Hc as <-. simpl in *. auto.
Qed.

(** ** One line, one field *)

(** A line of the window fills at most one field, or sends one warning,
    never both. *)
Lemma findLine_body_progress variables c st :
  let st' := findLine_body variables c st in
  fields_found (fst st') + length (snd st')
  <= fields_found (fst st) + length (snd st) + 1.
Proof.
  destruct st as [p ws]. unfold findLine_body, fields_found. cbn [fst snd].
  destruct (lineKeyValueMatch c) as [[g1 g2]|]; cbn zeta; [|simpl; lia].
  destruct (isNaN _); [simpl; rewrite length_app; simpl; lia|].
  destruct (String.eqb_spec (toLowerCase g1) "x");
    [destruct (x p), (y p), (z p); simpl; lia|].
  destruct (String.eqb_spec (toLowerCase g1) "y");
    [destruct (x p), (y p), (z p); simpl; lia|].
  destruct (String.eqb_spec (toLowerCase g1) "z");
    [destruct (x p), (y p), (z p); simpl; lia|].
  simpl; lia.
Qed.

Lemma over_findLine_progress variables w st :
  let st' := over (findLine_body variables) w st in
  fields_found (fst st') + length (snd st')
  <= fields_found (fst st) + length (snd st) + length w.
Proof.
  revert st; induction w as [|c w IH]; intros st; cbn zeta; [simpl; lia|].
  unfold over in *. cbn [fold_left length].
  specialize (IH (findLine_body variables c st)). cbn zeta in IH.
  pose proof (findLine_body_progress variables c st) as H. cbn zeta in H. lia.
Qed.

Lemma window_length stop k ls :
  length (window stop k ls) <= Nat.min k (length ls).
Proof.
  revert ls; induction k as [|k IH]; intros [|l ls]; simpl; try lia.
  destruct (stop (trim l)); simpl; [lia|]. specialize (IH ls). lia.
Qed.

Lemma lineWindow_length lines :
  length (lineWindow lines) <= 10 /\ length (lineWindow lines) + 1 <= Nat.max 1 (length lines).
Proof.
  unfold lineWindow. destruct (markers "$E" lines) as [|i ms] eqn:E; [simpl; lia|].
  assert (Hi : In i (markers "$E" lines)) by (rewrite E; now left).
  apply markers_spec in Hi as (l & Hl & _). apply lookup_lt_Some in Hl.
  unfold windowAt. pose proof (window_length line_break 10 (drop (S i) lines)) as H.
  rewrite length_drop in H. lia.
Qed.

(** Each line of the window of [findLine] accounts for at most one field
    or one warning: the fields found and the warnings sent are together no
    more than the lines of the window, which are at most 10 and fewer than
    the lines of the document. *)
Theorem findLine_scan_budget (content : string) :
  let st := findLine_scan content in
  let w := lineWindow (split content) in
  fields_found (fst st) + length (snd st) <= length w
  /\ length w <= 10
  /\ length w < length (split content).
Proof.
  cbn zeta. rewrite findLine_scan_window.
  pose proof (over_findLine_progress (parseVariables (split content))
                (lineWindow (split content)) (mkLine None None None, [])) as H.
  cbn zeta in H. simpl in H.
  pose proof (lineWindow_length (split content)) as [H10 Hlen].
  assert (1 <= length (split content)) by (destruct content; simpl;
    [lia|destruct (code _ =? 10)%N; [simpl; lia|destruct (split content); simpl; lia]]).
  repeat split; lia.
Qed.

(** [findLine] cannot succeed on fewer than four lines: the three
    coordinates need a line each in the window after the [$E] marker, so
    three coordinates written on one line are not found. *)
Theorem findLine_needs_three_lines (content : string) (ln : Line number) :
  findLine content = Return ln ->
  3 <= length (lineWindow (split content))
  /\ 4 <= length (split content)
  /\ length (snd (findLine_scan content)) <= 7.
Proof.
  intros H.
  assert (Hf : fields_found (fst (findLine_scan content)) = 3).
  { unfold findLine in H. destruct (findLine_scan content) as [p ws].
    unfold fields_found. simpl.
    destruct (x p) as [vx|], (y p) as [vy|], (z p) as [vz|]; simpl in *;
      try discriminate H; try reflexivity;
      repeat match type of H with
             | context [isNaN ?v] => destruct (isNaN v)
             end; discriminate H. }
  rewrite findLine_scan_window in *.
  pose proof (over_findLine_progress (parseVariables (split content))
                (lineWindow (split content)) (mkLine None None None, [])) as Hp.
  cbn zeta in Hp. simpl in Hp.
  pose proof (lineWindow_length (split content)) as [H10 Hlen].
  repeat split; lia.
Qed.

Lemma findLine_needs_three_lines_witness :
  3 <= length (lineWindow (split (js "$E\nX=1\nY=abc\nY=2\nZ=3")))
  /\ 4 <= length (split (js "$E\nX=1\nY=abc\nY=2\nZ=3"))
  /\ length (snd (findLine_scan (js "$E\nX=1\nY=abc\nY=2\nZ=3"))) <= 7.
Proof.
  apply (findLine_needs_three_lines (js "$E\nX=1\nY=abc\nY=2\nZ=3")
           (mkLine (Decimal false 1 0) (Decimal false 2 0) (Decimal false 3 0))).
  vm_compute. reflexivity.
Defined.

(* ===================================================================== *)
(** * Further properties of the variable table *)
(* ===================================================================== *)

(** A token that is no key of the table parses to the number it would
    parse to without the substitution: when the lookup falls through to a
    property of [Object.prototype] the value is not a number, and neither
    is the name of any such property. *)
Theorem substitute_keeps_number (variables : gmap string string) (token : string) :
  variables !! token = None ->
  parseFloat_value (substitute variables token) = parseFloat token.
Proof.
  intros H. unfold substitute, get. rewrite H.
  destruct (bool_decide (token ∈ object_prototype)) eqn:E; [|reflexivity].
  apply bool_decide_eq_true_1, list_elem_of_In in E. simpl.
  unfold object_prototype in E. cbn [In] in E.
  repeat (destruct E as [<-|E]; [vm_compute; reflexivity|]). destruct E.
Qed.

Lemma substitute_keeps_number_witness :
  parseFloat_value (substitute (<["A":="1"]> ∅) "toString") = parseFloat "toString"
  /\ parseFloat_value (substitute (<["A":="1"]> ∅) "12.5") = parseFloat "12.5".
Proof.
  split; apply substitute_keeps_number; vm_compute; reflexivity.
Defined.

(** Every line of a literal list is computed to satisfy a test. *)
Ltac lines_ok :=
  repeat (apply List.Forall_cons; [vm_compute; reflexivity|]);
  apply List.Forall_nil.

Lemma parseVariables_no_header_witness :
  parseVariables ["$E"; js "A=\q1\q"; "[002"; js "B=\q2\q"] = ∅.
Proof.
  apply parseVariables_no_header. lines_ok.
Defined.

Lemma parseVariables_last_write_wins_witness :
  parseVariables
    (["$E"; "[001"] ++ ([js "A=\q1\q"; js "B=\q5\q"] ++ js "A = \q2\q" :: ["junk"])
       ++ [""; js "A=\q3\q"])%list !! "A" = Some "2".
Proof.
  apply (parseVariables_last_write_wins ["$E"] "[001" [js "A=\q1\q"; js "B=\q5\q"]
           (js "A = \q2\q") ["junk"] [""; js "A=\q3\q"] "A" "2").
  - lines_ok.
  - reflexivity.
  - lines_ok.
  - split; reflexivity.
  - vm_compute. reflexivity.
  - apply List.Forall_cons; [|apply List.Forall_nil].
    intros v'. vm_compute. discriminate.
  - discriminate.
Defined.

(** Nothing before the first [[001] header reaches the table, and neither
    does the text of the header line itself: the scan starts on the line
    after it. *)
Theorem parseVariables_starts_after_header (pre tl : list string) (h : string) :
  Forall (fun l => is_header l = false) pre ->
  is_header h = true ->
  parseVariables (pre ++ h :: tl) = parseVariables ("[001" :: tl).
Proof.
  intros Hpre Hh. unfold parseVariables.
  rewrite parseVariables_loop_before by assumption.
  now rewrite (parseVariables_loop_before [] "[001" tl).
Qed.

Lemma parseVariables_starts_after_header_witness :
  parseVariables [js "A=\q1\q"; ""; js "  [001] B=\q2\q"; js "C=\q3\q"]
  = parseVariables ["[001"; js "C=\q3\q"].
Proof.
  apply (parseVariables_starts_after_header [js "A=\q1\q"; ""] [js "C=\q3\q"]
           (js "  [001] B=\q2\q")).
  - lines_ok.
  - vm_compute. reflexivity.
Defined.

Lemma varMatch_sound line g1 g2 :
  varMatch line = Some (g1, g2) -> entry_shape g1 g2.
Proof.
  unfold varMatch. intros H. apply search_sound in H as (pre & suf & _ & H).
  apply assignment_sound in H as (ws1 & ws2 & post & _ & Hn & Hw & _ & _ & Hv & Hq).
  now repeat split.
Qed.

Lemma parseVariables_loop_shape lines flag (variables : gmap string string) :
  (forall k v, variables !! k = Some v -> entry_shape k v /\ k <> "__proto__") ->
  forall k v, parseVariables_loop lines flag variables !! k = Some v ->
              entry_shape k v /\ k <> "__proto__".
Proof.
  revert flag variables; induction lines as [|l lines IH];
    intros flag variables Hinv; [exact Hinv|].
  cbn [parseVariables_loop]. cbn zeta.
  destruct (startsWith (trim l) "[001"); [now apply IH|].
  destruct flag; [|now apply IH].
  destruct (variables_break (trim l)); [exact Hinv|].
  destruct (varMatch (trim l)) as [[n v]|] eqn:E; [|now apply IH].
  apply IH. intros k v'. unfold set.
  destruct (String.eqb_spec n "__proto__") as [->|Hn]; [apply Hinv|].
  destruct (decide (n = k)) as [<-|Hk].
  - rewrite lookup_insert_eq. intros [= <-]. split; [|assumption].
    now apply varMatch_sound in E.
  - rewrite lookup_insert_ne by assumption. apply Hinv.
Qed.

(** Every entry of the table has a name made of word characters and a
    value without double quote, both non-empty, and no entry is named
    [__proto__]. *)
Theorem parseVariables_entries (lines : list string) (name value : string) :
  parseVariables lines !! name = Some value ->
  entry_shape name value /\ name <> "__proto__".
Proof.
  apply parseVariables_loop_shape. intros k v H.
  rewrite lookup_empty in H. discriminate H.
Qed.

Lemma parseVariables_entries_witness :
  entry_shape "SCALE" "2.0" /\ "SCALE" <> "__proto__".
Proof.
  apply (parseVariables_entries (split (js "[001]\nSCALE=\q2.0\q\n<102>"))).
  vm_compute. reflexivity.
Defined.

(** ** Writing an assignment and reading it back *)

Lemma startsWith_cons c s a p :
  startsWith (String c s) (String a p)
  = if ascii_dec a c then startsWith s p else false.
Proof. reflexivity. Qed.

Lemma space_not_word c : is_space c = true -> is_word c = false.
Proof.
  destruct c as [[] [] [] [] [] [] [] []]; vm_compute; congruence.
Qed.

(** The text [ws ++ rest] does not go on with a character of class [p]
    when [ws] is made of characters outside [p] and [rest] does not. *)
Lemma stops_app (p q : ascii -> bool) ws rest :
  (forall c, q c = true -> p c = false) ->
  all_chars q ws = true -> stops p rest -> stops p (ws ++ rest).
Proof.
  intros Hqp Hws Hrest. destruct ws as [|c ws]; [exact Hrest|].
  simpl in Hws. apply andb_true_iff in Hws as [Hc _]. simpl. auto.
Qed.

Lemma search_here {A} (re : string -> option A) s a :
  re s = Some a -> search re s = Some a.
Proof. intros H. destruct s; cbn [search]; now rewrite H. Qed.

Lemma trimmed_end_app s t : trimmed_end t -> trimmed_end (s ++ t).
Proof.
  intros [Ht Hne]. induction s as [|c s [IH IHne]]; [now split|].
  change (String c s ++ t) with (String c (s ++ t)). split; [|discriminate].
  cbn [trimEnd]. rewrite IH. now destruct (s ++ t).
Qed.

Lemma trimmed_end_char c : is_space c = false -> trimmed_end (String c EmptyString).
Proof. intros H. split; [|discriminate]. cbn [trimEnd]. now rewrite H. Qed.

Lemma trim_trimmed c s :
  is_space c = false -> trimmed_end (String c s) -> trim (String c s) = String c s.
Proof. intros Hc [Ht _]. unfold trim. cbn [trimStart]. now rewrite Hc. Qed.

(** The quoted assignment matches a line of the form it describes. *)
Lemma assignment_complete name ws1 ws2 v post :
  name <> EmptyString -> all_chars is_word name = true ->
  all_chars is_space ws1 = true -> all_chars is_space ws2 = true ->
  v <> EmptyString -> all_chars not_dquote v = true ->
  assignment (name ++ ws1 ++ String "="%char (ws2 ++ String dquote (v ++ String dquote post)))
  = Some (name, v).
Proof.
  intros Hn Hnw Hw1 Hw2 Hv Hvq. unfold assignment, many1.
  apply many_longest; [assumption| |].
  { apply (stops_app is_word is_space); [apply space_not_word|assumption|reflexivity]. }
  destruct name as [|n0 name]; [contradiction|].
  apply many_longest; [assumption|reflexivity|].
  cbn [lit]. change (is_eq_sign "="%char) with true. cbn iota.
  apply many_longest; [assumption|reflexivity|].
  cbn [lit]. change (is_dquote dquote) with true. cbn iota.
  apply many_longest; [assumption|reflexivity|].
  destruct v as [|v0 v]; [contradiction|]. reflexivity.
Qed.

Lemma assignment_line_trimmed name ws1 ws2 v :
  name <> EmptyString -> all_chars is_word name = true ->
  trim (assignment_line name ws1 ws2 v) = assignment_line name ws1 ws2 v
  /\ is_header (assignment_line name ws1 ws2 v) = false.
Proof.
  intros Hn Hnw.
  assert (Ht : trimmed_end (assignment_line name ws1 ws2 v)).
  { unfold assignment_line, quoted. apply trimmed_end_app, trimmed_end_app.
    apply (trimmed_end_app (String "="%char EmptyString)), trimmed_end_app.
    apply (trimmed_end_app (String dquote EmptyString)), trimmed_end_app.
    now apply trimmed_end_char. }
  unfold assignment_line in *. destruct name as [|c name]; [contradiction|].
  simpl in Hnw. apply andb_true_iff in Hnw as [Hc _].
  change (String c name ++ ws1 ++ String "="%char (ws2 ++ quoted v))
    with (String c (name ++ ws1 ++ String "="%char (ws2 ++ quoted v))) in *.
  assert (E : trim (String c (name ++ ws1 ++ String "="%char (ws2 ++ quoted v)))
              = String c (name ++ ws1 ++ String "="%char (ws2 ++ quoted v)))
    by (apply trim_trimmed; [now apply word_not_space|assumption]).
  split; [exact E|]. unfold is_header. rewrite E, startsWith_cons.
  destruct (ascii_dec "["%char c) as [<-|]; [discriminate Hc|reflexivity].
Qed.

(** Writing a name, an equals sign with any white space around it and a
    quoted value on a line of the variables section, and reading the table:
    the line is an assignment of the value to the name, and a section made
    of this line maps the name to the value. *)
Theorem variable_round_trip (h name ws1 ws2 v : string) :
  is_header h = true ->
  name <> EmptyString -> all_chars is_word name = true -> name <> "__proto__" ->
  all_chars is_space ws1 = true -> all_chars is_space ws2 = true ->
  v <> EmptyString -> all_chars not_dquote v = true ->
  var_assignment (assignment_line name ws1 ws2 v) = Some (name, v)
  /\ parseVariables [h; assignment_line name ws1 ws2 v] !! name = Some v.
Proof.
  intros Hh Hn Hnw Hp Hw1 Hw2 Hv Hvq.
  destruct (assignment_line_trimmed name ws1 ws2 v Hn Hnw) as [Ht Hhd].
  assert (Ha : var_assignment (assignment_line name ws1 ws2 v) = Some (name, v)).
  { unfold var_assignment, varMatch. rewrite Hhd, Ht.
    apply search_here. unfold assignment_line, quoted.
    now apply assignment_complete. }
  split; [exact Ha|].
  assert (Hin : in_section (assignment_line name ws1 ws2 v) = true).
  { unfold in_section. rewrite Hhd. simpl.
    destruct (variables_break (trim (assignment_line name ws1 ws2 v))) eqn:E;
      [|reflexivity].
    exfalso. rewrite Ht in E. unfold assignment_line in E.
    destruct name as [|c name]; [contradiction|].
    simpl in Hnw. apply andb_true_iff in Hnw as [Hc _].
    unfold variables_break in E.
    change (String c name ++ ws1 ++ String "="%char (ws2 ++ quoted v))
      with (String c (name ++ ws1 ++ String "="%char (ws2 ++ quoted v))) in E.
    rewrite !startsWith_cons in E. cbn [String.eqb] in E.
    destruct (ascii_dec "["%char c) as [<-|]; [discriminate Hc|].
    destruct (ascii_dec "<"%char c) as [<-|]; [discriminate Hc|].
    destruct (ascii_dec "$"%char c) as [<-|]; [discriminate Hc|].
    discriminate E. }
  change [h; assignment_line name ws1 ws2 v]
    with ([] ++ h :: [assignment_line name ws1 ws2 v] ++ [])%list.
  rewrite (parseVariables_section [] h [assignment_line name ws1 ws2 v] []);
    [|constructor|assumption|now constructor|exact I].
  cbn [fold_left]. unfold assign_variable. rewrite Ha.
  now apply set_lookup_eq.
Qed.

Lemma variable_round_trip_witness :
  var_assignment (assignment_line "FOO" " " "  " "12.5") = Some ("FOO", "12.5")
  /\ parseVariables ["[001]"; assignment_line "FOO" " " "  " "12.5"] !! "FOO"
     = Some "12.5".
Proof.
  apply variable_round_trip; try reflexivity; discriminate.
Defined.

(* ===================================================================== *)
(** * Lines the scanners pass over, and quotes *)
(* ===================================================================== *)

Lemma all_chars_middle p a c b :
  all_chars p (a ++ String c b) = true -> p c = true.
Proof.
  rewrite all_chars_app. simpl. intros H.
  apply andb_true_iff in H as [_ H]. now apply andb_true_iff in H as [H _].
Qed.

(** A line without equals sign is no assignment for any of the three
    scanners: it leaves the state of line extraction and of circle
    extraction as it is, without a warning, and defines no variable. *)
Theorem line_without_equals_is_skipped
    (variables : gmap string string) (c : string)
    (st : scan (Line (option number))) (st' : scan (Circle (option number))) :
  all_chars not_eq_sign c = true ->
  findLine_body variables c st = st
  /\ findCircles_body variables c st' = st'
  /\ varMatch c = None.
Proof.
  intros H.
  assert (Hne : forall a b, c <> a ++ String "="%char b).
  { intros a b ->. now apply all_chars_middle in H. }
  assert (H1 : lineKeyValueMatch c = None).
  { destruct (lineKeyValueMatch c) as [[g1 g2]|] eqn:E; [|reflexivity].
    apply lineKeyValueMatch_sound in E as (ws1 & ws2 & E & _).
    rewrite <- append_assoc in E. now apply Hne in E. }
  assert (H2 : circleKeyValueMatch c = None).
  { unfold circleKeyValueMatch.
    destruct (assignment c) as [[g1 g2]|] eqn:E; [|reflexivity].
    apply assignment_sound in E as (ws1 & ws2 & post & E & _).
    rewrite <- append_assoc in E. now apply Hne in E. }
  assert (H3 : varMatch c = None).
  { unfold varMatch. destruct (search assignment c) as [[g1 g2]|] eqn:E; [|reflexivity].
    apply search_sound in E as (pre & suf & -> & E).
    apply assignment_sound in E as (ws1 & ws2 & post & -> & _).
    rewrite <- !append_assoc in Hne. now destruct (Hne _ _ eq_refl). }
  repeat split; [| |exact H3].
  - destruct st. unfold findLine_body. now rewrite H1.
  - destruct st'. unfold findCircles_body. now rewrite H2.
Qed.

Lemma line_without_equals_is_skipped_witness :
  findLine_body ∅ "KM 12" (mkLine None None None, []) = (mkLine None None None, [])
  /\ findCircles_body ∅ "KM 12" (mkCircle None None None, [])
     = (mkCircle None None None, [])
  /\ varMatch "KM 12" = None.
Proof. apply line_without_equals_is_skipped. reflexivity. Defined.

Lemma string_length_append (a b : string) :
  String.length (a ++ b) = String.length a + String.length b.
Proof.
  induction a as [|c a IH]; [reflexivity|].
  change (String c a ++ b) with (String c (a ++ b)). simpl. now rewrite IH.
Qed.

Lemma quoted_longer t : quoted t <> t.
Proof.
  intros H. apply (f_equal String.length) in H. unfold quoted in H.
  simpl in H. rewrite string_length_append in H. simpl in H. lia.
Qed.

(** What [value.replace] with the quote expression does: a text that is a
    non-empty run of characters other than line terminators between two
    double quotes loses the two quotes, and every other text is returned
    as it is; an empty pair of quotes is therefore kept. *)
Theorem removeQuotes_spec (value : string) :
  (exists t, t <> EmptyString /\ all_chars is_dot t = true
             /\ value = quoted t /\ removeQuotes value = t)
  \/ ((forall t, t <> EmptyString -> all_chars is_dot t = true -> value <> quoted t)
      /\ removeQuotes value = value).
Proof.
  destruct (lit is_dquote value (fun r1 => many1 is_dot r1 (fun g1 r2 =>
              lit is_dquote r2 (fun r3 => eoi r3 g1)))) as [g|] eqn:E.
  - left. exists g. pose proof E as E'.
    apply lit_sound in E as (q & r1 & -> & Hq & E). apply dquote_char in Hq as ->.
    apply many1_sound in E as (t & r2 & -> & Ht & Hd & E).
    apply lit_sound in E as (q & r3 & -> & Hq & E). apply dquote_char in Hq as ->.
    destruct r3; [|discriminate E]. injection E as <-.
    repeat split; try assumption. unfold removeQuotes. now rewrite E'.
  - right. assert (Hr : removeQuotes value = value)
      by (unfold removeQuotes; now rewrite E).
    split; [|exact Hr]. intros t Ht Hd ->.
    rewrite removeQuotes_quoted in Hr by assumption.
    symmetry in Hr. now apply quoted_longer in Hr.
Qed.

Lemma startsWith_marker_bracket s :
  startsWith s "<102" = true -> startsWith s "<" = true.
Proof.
  destruct s as [|c s]; [discriminate|]. rewrite !startsWith_cons.
  destruct (ascii_dec "<"%char c); [|discriminate]. intros _.
  now destruct s.
Qed.

(** The windows of two [<102] markers never share a line: the window of a
    marker ends before the next marker, so each line of the document is
    read for one circle at most. *)
Theorem circle_windows_disjoint (lines : list string) (i j : nat) :
  In i (markers "<102" lines) -> In j (markers "<102" lines) -> i < j ->
  i + length (windowAt circle_break 15 lines i) < j.
Proof.
  intros _ Hj Hij. apply markers_spec in Hj as (l & Hl & Hm).
  unfold windowAt.
  destruct (window_spec circle_break 15 (drop (S i) lines))
    as (w & rest & Hd & -> & Hw & _ & _).
  rewrite length_map.
  destruct (Nat.lt_ge_cases (i + length w) j) as [|Hle]; [assumption|exfalso].
  assert (Hl' : w !! (j - S i) = Some l).
  { rewrite <- (lookup_app_l w rest) by lia. rewrite <- Hd, lookup_drop.
    replace (S i + (j - S i)) with j by lia. exact Hl. }
  apply list_elem_of_lookup_2, list_elem_of_In in Hl'.
  rewrite List.Forall_forall in Hw. specialize (Hw l Hl').
  unfold circle_break in Hw. apply startsWith_marker_bracket in Hm.
  now rewrite Hm in Hw.
Qed.

Lemma circle_windows_disjoint_witness :
  0 + length (windowAt circle_break 15
                (split (js "<102\nXA=\q1\q\nYA=\q2\q\n<102\nDU=\q3\q")) 0) < 3.
Proof.
  apply circle_windows_disjoint; [vm_compute; left; reflexivity
                                 | vm_compute; right; left; reflexivity | lia].
Defined.

(** ** Keys and values of the lines of a window *)

(** The key and value expression of [findLine] matches every line made
    of a key, an equals sign with white space around it and a value that
    starts with no white space and holds no line terminator. *)
Lemma lineKeyValueMatch_complete key ws1 ws2 c v :
  key <> EmptyString -> all_chars is_word key = true ->
  all_chars is_space ws1 = true -> all_chars is_space ws2 = true ->
  is_space c = false -> all_chars is_dot (String c v) = true ->
  lineKeyValueMatch (plain_line key ws1 ws2 (String c v)) = Some (key, String c v).
Proof.
  intros Hkey Hword Hw1 Hw2 Hc Hdot. unfold plain_line, lineKeyValueMatch, many1.
  apply many_longest; [assumption| |].
  { apply (stops_app is_word is_space); [apply space_not_word|assumption|reflexivity]. }
  destruct key as [|k0 key]; [contradiction|].
  apply many_longest; [assumption|reflexivity|].
  cbn [lit]. change (is_eq_sign "="%char) with true. cbn iota.
  apply many_longest; [assumption|exact Hc|].
  rewrite <- (append_nil_r (String c v)) at 1.
  apply many_longest; [assumption|exact I|reflexivity].
Qed.

(** A run of one class in front of a text that does not go on with that
    class is determined by the whole text. *)
Lemma run_unique p a r a' r' :
  all_chars p a = true -> all_chars p a' = true -> stops p r -> stops p r' ->
  a ++ r = a' ++ r' -> a = a' /\ r = r'.
Proof.
  revert a'; induction a as [|c a IH]; intros a' Ha Ha' Hr Hr' E.
  - destruct a' as [|c' a']; [now split|].
    change (EmptyString ++ r) with r in E.
    change (String c' a' ++ r') with (String c' (a' ++ r')) in E. subst r.
    simpl in Ha', Hr. apply andb_true_iff in Ha' as [Hc' _]. congruence.
  - simpl in Ha. apply andb_true_iff in Ha as [Hc Ha].
    destruct a' as [|c' a'].
    + change (EmptyString ++ r') with r' in E.
      change (String c a ++ r) with (String c (a ++ r)) in E. subst r'.
      simpl in Hr'. congruence.
    + change (String c a ++ r) with (String c (a ++ r)) in E.
      change (String c' a' ++ r') with (String c' (a' ++ r')) in E.
      injection E as -> E. simpl in Ha'. apply andb_true_iff in Ha' as [_ Ha'].
      destruct (IH a' Ha Ha' Hr Hr' E) as [-> ->]. now split.
Qed.

(** In a [<102] window the quotes are required: a line whose value does
    not start with a double quote is no assignment, it changes neither the
    circle nor the warnings. *)
Theorem findCircles_requires_quotes
    (variables : gmap string string) (key ws1 ws2 v : string) (c : ascii)
    (st : scan (Circle (option number))) :
  key <> EmptyString -> all_chars is_word key = true ->
  all_chars is_space ws1 = true -> all_chars is_space ws2 = true ->
  is_space c = false -> is_dquote c = false ->
  circleKeyValueMatch (plain_line key ws1 ws2 (String c v)) = None
  /\ findCircles_body variables (plain_line key ws1 ws2 (String c v)) st = st.
Proof.
  intros Hkey Hkw Hw1 Hw2 Hc Hq.
  assert (H : circleKeyValueMatch (plain_line key ws1 ws2 (String c v)) = None).
  { unfold circleKeyValueMatch.
    destruct (assignment _) as [[g1 g2]|] eqn:E; [exfalso|reflexivity].
    apply assignment_sound in E
      as (ws1' & ws2' & post & E & _ & Hg1 & Hw1' & Hw2' & _ & _).
    unfold plain_line in E.
    apply (run_unique is_word) in E as [_ E]; try assumption;
      try (apply (stops_app is_word is_space);
           [apply space_not_word|assumption|reflexivity]).
    apply (run_unique is_space) in E as [_ E]; try assumption; try reflexivity.
    injection E as E.
    apply (run_unique is_space) in E as [_ E]; try assumption; try reflexivity.
    unfold quoted in E.
    change (String dquote (g2 ++ String dquote EmptyString) ++ post)
      with (String dquote ((g2 ++ String dquote EmptyString) ++ post)) in E.
    injection E as -> _. discriminate Hq. }
  split; [exact H|]. destruct st. unfold findCircles_body. now rewrite H.
Qed.

Lemma findCircles_requires_quotes_witness :
  circleKeyValueMatch (plain_line "XA" "" "" "40") = None
  /\ findCircles_body ∅ (plain_line "XA" "" "" "40") (mkCircle None None None, [])
     = (mkCircle None None None, []).
Proof.
  apply (findCircles_requires_quotes ∅ "XA" "" "" "0" "4"%char);
    first [discriminate | reflexivity].
Defined.

Lemma quoted_trimmed t : trimmed_end (quoted t).
Proof.
  unfold quoted. apply (trimmed_end_app (String dquote EmptyString)).
  apply trimmed_end_app. now apply trimmed_end_char.
Qed.

(** In a [$E] window the quotes around a value are optional, for numbers
    as well as for names: a value that starts with neither white space
    nor a double quote, ends with no white space and holds no line
    terminator has the same effect with and without quotes. *)
Theorem findLine_quotes_optional
    (variables : gmap string string) (key ws1 ws2 v : string) (c : ascii)
    (st : scan (Line (option number))) :
  key <> EmptyString -> all_chars is_word key = true ->
  all_chars is_space ws1 = true -> all_chars is_space ws2 = true ->
  is_space c = false -> is_dquote c = false ->
  all_chars is_dot (String c v) = true -> trimmed_end (String c v) ->
  findLine_body variables (plain_line key ws1 ws2 (quoted (String c v))) st
  = findLine_body variables (plain_line key ws1 ws2 (String c v)) st
  /\ lineValue variables (quoted (String c v)) = substitute variables (String c v).
Proof.
  intros Hkey Hkw Hw1 Hw2 Hc Hq Hdot Ht.
  assert (Hv : removeQuotes (trim (quoted (String c v))) = String c v).
  { unfold quoted at 1. rewrite trim_trimmed; [|reflexivity|apply quoted_trimmed].
    apply removeQuotes_quoted; [discriminate|assumption]. }
  assert (Hp : removeQuotes (trim (String c v)) = String c v).
  { rewrite trim_trimmed by assumption. now apply removeQuotes_plain. }
  assert (Hl : lineValue variables (quoted (String c v))
               = substitute variables (String c v))
    by (unfold lineValue; now rewrite Hv).
  split; [|exact Hl].
  unfold findLine_body.
  rewrite (lineKeyValueMatch_complete key ws1 ws2 c v) by assumption.
  unfold quoted at 1.
  rewrite (lineKeyValueMatch_complete key ws1 ws2 dquote
             (String c v ++ String dquote EmptyString)); try assumption;
    try reflexivity.
  - cbn zeta. fold (quoted (String c v)). now rewrite Hv, Hp.
  - change (all_chars is_dot (String dquote (String c v ++ String dquote EmptyString)))
      with (is_dot dquote && all_chars is_dot (String c v ++ String dquote EmptyString)).
    rewrite all_chars_app, Hdot. reflexivity.
Qed.

Lemma findLine_quotes_optional_witness :
  findLine_body ∅ (plain_line "X" " " " " (quoted "-12.5")) (mkLine None None None, [])
  = findLine_body ∅ (plain_line "X" " " " " "-12.5") (mkLine None None None, [])
  /\ lineValue ∅ (quoted "-12.5") = substitute ∅ "-12.5".
Proof.
  apply (findLine_quotes_optional ∅ "X" " " " " "12.5" "-"%char);
    first [discriminate | reflexivity | (split; [reflexivity|discriminate])].
Defined.

(** Keys are compared without regard to case, in both kinds of window:
    two lines that differ only in the case of the letters of their key have
    the same effect, warning included. *)
Theorem keys_ignore_case
    (variables : gmap string string) (key1 key2 ws1 ws2 : string) :
  key1 <> EmptyString -> all_chars is_word key1 = true ->
  key2 <> EmptyString -> all_chars is_word key2 = true ->
  toLowerCase key1 = toLowerCase key2 ->
  all_chars is_space ws1 = true -> all_chars is_space ws2 = true ->
  (forall c v st,
      is_space c = false -> all_chars is_dot (String c v) = true ->
      findLine_body variables (plain_line key1 ws1 ws2 (String c v)) st
      = findLine_body variables (plain_line key2 ws1 ws2 (String c v)) st)
  /\ (forall v st,
      v <> EmptyString -> all_chars not_dquote v = true ->
      findCircles_body variables (assignment_line key1 ws1 ws2 v) st
      = findCircles_body variables (assignment_line key2 ws1 ws2 v) st).
Proof.
  intros Hk1 Hw1 Hk2 Hw2 Hlow Hs1 Hs2. split.
  - intros c v st Hc Hdot. unfold findLine_body.
    rewrite !lineKeyValueMatch_complete by assumption. cbn zeta.
    now rewrite Hlow.
  - intros v st Hv Hq. unfold findCircles_body, circleKeyValueMatch.
    unfold assignment_line, quoted.
    rewrite !assignment_complete by assumption. cbn zeta.
    now rewrite Hlow.
Qed.

Lemma keys_ignore_case_witness :
  findLine_body ∅ (plain_line "x" "" "" "7") (mkLine None None None, [])
  = findLine_body ∅ (plain_line "X" "" "" "7") (mkLine None None None, [])
  /\ findCircles_body ∅ (assignment_line "Du" "" "" "40") (mkCircle None None None, [])
     = findCircles_body ∅ (assignment_line "dU" "" "" "40") (mkCircle None None None, []).
Proof.
  split.
  - apply (proj1 (keys_ignore_case ∅ "x" "X" "" ""
                    ltac:(discriminate) eq_refl ltac:(discriminate) eq_refl
                    eq_refl eq_refl eq_refl) "7"%char ""); reflexivity.
  - apply (proj2 (keys_ignore_case ∅ "Du" "dU" "" ""
                    ltac:(discriminate) eq_refl ltac:(discriminate) eq_refl
                    eq_refl eq_refl eq_refl) "40"); [discriminate|reflexivity].
Defined.

(* ===================================================================== *)
(** * The lines of the DXF text *)
(* ===================================================================== *)

Lemma split_line l : all_chars not_LF l = true -> split l = [l].
Proof.
  induction l as [|c l IH]; [reflexivity|]. simpl.
  intros [Hc Hl]%andb_true_iff. unfold not_LF in Hc.
  apply negb_true_iff in Hc. now rewrite Hc, IH.
Qed.

Lemma split_append l t :
  all_chars not_LF l = true -> split (l ++ String LF t) = l :: split t.
Proof.
  induction l as [|c l IH]; [reflexivity|]. simpl.
  intros [Hc Hl]%andb_true_iff. unfold not_LF in Hc.
  apply negb_true_iff in Hc.
  change (String c l ++ String LF t) with (String c (l ++ String LF t)).
  cbn [split]. now rewrite Hc, IH.
Qed.

(** Splitting at the line feeds gives back the lines that were joined. *)
Lemma split_join_lines ls :
  ls <> [] -> Forall (fun l => all_chars not_LF l = true) ls ->
  split (join_lines ls) = ls.
Proof.
  intros Hne H. induction H as [|l ls Hl Hls IH]; [contradiction|].
  destruct ls as [|l' ls]; [now apply split_line|].
  change (join_lines (l :: l' :: ls)) with (l ++ String LF (join_lines (l' :: ls))).
  rewrite split_append by assumption. now rewrite IH.
Qed.

Lemma group_lines_app gs1 gs2 :
  group_lines (gs1 ++ gs2)%list = (group_lines gs1 ++ group_lines gs2)%list.
Proof. unfold group_lines. apply flat_map_app. Qed.

Lemma group_lines_length gs : length (group_lines gs) = 2 * length gs.
Proof. induction gs as [|g gs IH]; simpl in *; lia. Qed.

Section Lines.

Variable toString : number -> string.
Variable divide : number -> number -> number.

(** The text of a Number holds no line feed. *)
Hypothesis toString_line : forall n, all_chars not_LF (toString n) = true.

Lemma createDxf_text (ln : Line number) (circles : list (Circle number)) :
  createDxf toString divide ln circles
  = join_lines (group_lines (dxf_skeleton toString divide ln circles)).
Proof.
  unfold dxf_skeleton, dxf_epilogue.
  change [("0", "ENDSEC"); ("0", "EOF")] with ([("0", "ENDSEC")] ++ [("0", "EOF")])%list.
  rewrite !app_assoc. rewrite join_group_lines.
  rewrite <- !app_assoc. rewrite app_assoc. rewrite !emit_all_app.
  unfold createDxf. cbn zeta. rewrite fold_createDxf_circle.
  unfold dxf_prologue, dxf_line. rewrite !emit_all_cons. cbn [fst snd].
  rewrite !append_assoc. reflexivity.
Qed.

Lemma dxf_circle_lines (circles : list (Circle number)) :
  Forall (fun l => all_chars not_LF l = true)
    (group_lines (flat_map (dxf_circle toString divide) circles)).
Proof.
  induction circles as [|c circles IH]; [constructor|].
  cbn [flat_map]. rewrite group_lines_app. apply Forall_app. split; [|exact IH].
  unfold dxf_circle, group_lines. cbn [flat_map app fst snd].
  repeat (apply List.Forall_cons; [first [apply toString_line | reflexivity]|]).
  apply List.Forall_nil.
Qed.

Lemma createDxf_split (ln : Line number) (circles : list (Circle number)) :
  split (createDxf toString divide ln circles)
  = group_lines (dxf_skeleton toString divide ln circles).
Proof.
  rewrite createDxf_text. apply split_join_lines; [discriminate|].
  unfold dxf_skeleton. rewrite !group_lines_app, !Forall_app. repeat split.
  - unfold dxf_prologue, group_lines. cbn [flat_map app fst snd].
    repeat (apply List.Forall_cons; [reflexivity|]). apply List.Forall_nil.
  - unfold dxf_line, group_lines. cbn [flat_map app fst snd].
    repeat (apply List.Forall_cons; [first [apply toString_line | reflexivity]|]).
    apply List.Forall_nil.
  - apply dxf_circle_lines.
  - unfold dxf_epilogue, group_lines. cbn [flat_map app fst snd].
    repeat (apply List.Forall_cons; [reflexivity|]). apply List.Forall_nil.
Qed.

Lemma createDxf_line_count (ln : Line number) (circles : list (Circle number)) :
  length (split (createDxf toString divide ln circles)) = 30 + 12 * length circles.
Proof.
  rewrite createDxf_split, group_lines_length. unfold dxf_skeleton.
  rewrite !length_app. simpl length at 1 2.
  assert (H : length (flat_map (dxf_circle toString divide) circles)
              = 6 * length circles).
  { induction circles as [|c circles IH]; [reflexivity|].
    cbn [flat_map]. rewrite length_app, IH. simpl. lia. }
  rewrite H. unfold dxf_epilogue. simpl. lia.
Qed.

(** When the text of a Number holds no line feed, the lines of the text
    [createDxf] returns are the group codes and values of the skeleton,
    code and value in turn: 30 lines and 12 more for each circle. *)
Theorem createDxf_lines (ln : Line number) (circles : list (Circle number)) :
  split (createDxf toString divide ln circles)
  = group_lines (dxf_skeleton toString divide ln circles)
  /\ length (split (createDxf toString divide ln circles))
     = 30 + 12 * length circles.
Proof. split; [apply createDxf_split|apply createDxf_line_count]. Qed.

(** The answer of [POST] to a document that converts has one [CIRCLE]
    block of 12 lines for each [<102] section whose window assigns [xa],
    [ya] and [du], after the 30 lines every answer has. *)
Theorem POST_line_count (content body : string) :
  POST toString divide (Some content) = DxfResponse body ->
  length (split body)
  = 30 + 12 * length (List.filter
                        (complete_at (parseVariables (split content)) (split content))
                        (markers "<102" (split content))).
Proof.
  unfold POST. destruct (findLine content) as [ln|msg]; [|discriminate].
  intros [= <-]. rewrite createDxf_line_count, findCircles_windows.
  now rewrite omap_circle_length.
Qed.

End Lines.

Lemma POST_line_count_witness :
  length (split (createDxf (fun _ => "0") (fun n _ => n)
                   (mkLine (Decimal false 1 0) (Decimal false 2 0) (Decimal false 3 0))
                   [mkCircle (Decimal false 4 0) (Decimal false 5 0) (Decimal false 6 0)]))
  = 30 + 12 * 1.
Proof.
  apply (POST_line_count (fun _ => "0") (fun n _ => n) (fun _ => eq_refl)
           (js "$E\nX=1\nY=2\nZ=3\n<102\nXA=\q1\q\nYA=\q2\q\n<102\nXA=\q4\q\nYA=\q5\q\nDU=\q6\q")).
  vm_compute. reflexivity.
Defined.

Lemma createDxf_lines_witness :
  length (split (createDxf (fun _ => "1.5")
                   (fun n _ => n) (mkLine NaN NaN NaN) [mkCircle NaN NaN NaN]))
  = 30 + 12 * 1.
Proof.
  apply (proj2 (createDxf_lines (fun _ => "1.5") (fun n _ => n)
                  (fun _ => eq_refl) (mkLine NaN NaN NaN) [mkCircle NaN NaN NaN])).
Defined.

(* ===================================================================== *)
(** * Only the trimmed lines matter *)
(* ===================================================================== *)

Lemma parseVariables_loop_trim ls ls' flag (variables : gmap string string) :
  map trim ls = map trim ls' ->
  parseVariables_loop ls flag variables = parseVariables_loop ls' flag variables.
Proof.
  revert ls' flag variables; induction ls as [|l ls IH];
    intros [|l' ls'] flag variables E; try discriminate E; [reflexivity|].
  injection E as El E. cbn [parseVariables_loop]. cbn zeta. rewrite <- El.
  destruct (startsWith (trim l) "[001"); [now apply IH|].
  destruct flag; [|now apply IH].
  destruct (variables_break (trim l)); [reflexivity|].
  destruct (varMatch (trim l)) as [[n v]|]; now apply IH.
Qed.

Lemma window_trim stop k ls ls' :
  map trim ls = map trim ls' -> window stop k ls = window stop k ls'.
Proof.
  revert ls ls'; induction k as [|k IH]; intros [|l ls] [|l' ls'] E;
    try discriminate E; try reflexivity.
  injection E as El E. cbn [window]. rewrite <- El.
  destruct (stop (trim l)); [reflexivity|]. f_equal. now apply IH.
Qed.

Lemma markers_trim tag ls ls' :
  map trim ls = map trim ls' -> markers tag ls = markers tag ls'.
Proof.
  revert ls'; induction ls as [|l ls IH]; intros [|l' ls'] E;
    try discriminate E; [reflexivity|].
  injection E as El E. rewrite !markers_cons, <- El. now rewrite (IH ls').
Qed.

Lemma windowAt_trim stop k ls ls' i :
  map trim ls = map trim ls' -> windowAt stop k ls i = windowAt stop k ls' i.
Proof.
  intros E. unfold windowAt. apply window_trim.
  now rewrite <- !skipn_map, E.
Qed.

(** White space around a line, the carriage return of a document with
    CR LF line ends included, changes nothing: two documents whose lines
    are equal once trimmed give the same line, the same warnings, the same
    circles and the same answer. *)
Theorem trimmed_lines_decide (content content' : string) :
  map trim (split content) = map trim (split content') ->
  findLine_scan content = findLine_scan content'
  /\ findLine content = findLine content'
  /\ findCircles content = findCircles content'
  /\ forall toString divide,
       POST toString divide (Some content) = POST toString divide (Some content').
Proof.
  intros E.
  assert (Hv : parseVariables (split content) = parseVariables (split content'))
    by now apply parseVariables_loop_trim.
  assert (Hs : findLine_scan content = findLine_scan content').
  { rewrite !findLine_scan_window, Hv. unfold lineWindow.
    rewrite (markers_trim _ _ _ E).
    destruct (markers "$E" (split content')); [reflexivity|].
    now rewrite (windowAt_trim _ _ _ _ _ E). }
  assert (Hl : findLine content = findLine content')
    by (unfold findLine; now rewrite Hs).
  assert (Hc : findCircles content = findCircles content').
  { rewrite !findCircles_windows, Hv, (markers_trim _ _ _ E).
    apply list_omap_ext. apply Forall2_same_length_lookup_2; [reflexivity|].
    intros i a b Ha Hb. rewrite Ha in Hb. injection Hb as <-.
    unfold circle_at. now rewrite (windowAt_trim _ _ _ _ _ E). }
  repeat split; try assumption.
  intros toString divide. unfold POST. now rewrite Hl, Hc.
Qed.

Lemma trimmed_lines_decide_witness :
  let cr := String (ascii_of_nat 13) EmptyString in
  let windows :=
    "$E" ++ cr ++ js "\n  X=1" ++ cr ++ js "\n  Y=2" ++ cr ++ js "\n  Z=3" ++ cr in
  findLine windows = findLine (js "$E\nX=1\nY=2\nZ=3")
  /\ findLine windows
     = Return (mkLine (Decimal false 1 0) (Decimal false 2 0) (Decimal false 3 0)).
Proof.
  cbn zeta. split; [|vm_compute; reflexivity].
  apply trimmed_lines_decide. vm_compute. reflexivity.
Defined.
